(** * user_service: the request pipeline of [main.py] and
      [helper/com_key_handler.py]

    A shallow embedding of the Tornado handlers [UsersHandler] and
    [UserDetailHandler], of the key validator they call first, and of the
    [users] table they read and write, followed by the properties of the
    service's specification that concern them.

    Conventions.
    - A Python [str] is a Rocq [string], one [ascii] per code point, so the
      embedding covers text over U+0000..U+00FF; the character classes below
      are those of the Unicode database on that range.
    - Python integers are [Z].
    - A handler is a computation over a [World] (table contents, clock
      reads, the trace of effects, the state of the one database
      connection) that either returns the response it wrote or lets an
      exception escape. *)

From Stdlib Require Import ZArith String Ascii List Bool Lia DecimalString.
From Stdlib Require DecimalPos DecimalFacts.
From Stdlib Require Import Sorted Permutation.
From stdpp Require Import gmap strings list.

Local Open Scope string_scope.
Local Open Scope list_scope.
Local Open Scope Z_scope.

(** ** Python values, exceptions and results *)

(** The values that reach [str()] and [int()] in this service: a header or
    argument is a [str] or [None]; the defaults of [page_num] and
    [page_size] are [int]. *)
Inductive pyval : Type :=
  | PNone
  | PStr (s : string)
  | PInt (z : Z).

(** The exceptions raised in this service, with the literal part of their
    messages. [HTTPError] and [MissingArgumentError] are Tornado's,
    [DatabaseError] is psycopg's, with [InFailedSqlTransaction] and the
    other errors of a statement among its subclasses. *)
Inductive exn : Type :=
  | ValueError (msg : string)
  | TypeError (msg : string)
  | HTTPError (status_code : Z) (log_message : string)
  | MissingArgumentError (arg_name : string)
  | DatabaseError (msg : string).

Inductive res (A : Type) : Type :=
  | Ok (a : A)
  | Raise (e : exn).
Arguments Ok {A} a.
Arguments Raise {A} e.

(** ** Text: character classes, [str()], [int()], [strip], [replace] *)
Module PyText.

Definition code (c : ascii) : Z := Z.of_N (N_of_ascii c).

Definition between (lo hi : Z) (c : ascii) : bool :=
  (lo <=? code c) && (code c <=? hi).

(** [\d] of a [str] pattern: the decimal digits (category Nd). *)
Definition is_decimal (c : ascii) : bool := between 48 57 c.

(** [str.isalpha]: 'A'-'Z', 'a'-'z', and the letters of U+00AA..U+00FF. *)
Definition is_alpha (c : ascii) : bool :=
  between 65 90 c || between 97 122 c
  || (code c =? 170) || (code c =? 181) || (code c =? 186)
  || between 192 214 c || between 216 246 c || between 248 255 c.

(** Digits and numerics that are not decimal: superscripts one to three
    and the vulgar fractions. *)
Definition is_other_numeric (c : ascii) : bool :=
  (code c =? 178) || (code c =? 179) || (code c =? 185) || between 188 190 c.

Definition is_alnum (c : ascii) : bool :=
  is_alpha c || is_decimal c || is_other_numeric c.

(** [\w] of a [str] pattern: alphanumeric or underscore; [\W] is its
    complement. *)
Definition is_word (c : ascii) : bool := is_alnum c || (code c =? 95).

(** [str.isspace] for one character, the set [str.strip()] removes. *)
Definition is_space (c : ascii) : bool :=
  between 9 13 c || between 28 32 c || (code c =? 133) || (code c =? 160).

Fixpoint lstrip (s : string) : string :=
  match s with
  | String c r => if is_space c then lstrip r else s
  | EmptyString => EmptyString
  end.

Fixpoint rstrip (s : string) : string :=
  match s with
  | String c r =>
      match rstrip r with
      | EmptyString => if is_space c then EmptyString else String c EmptyString
      | r' => String c r'
      end
  | EmptyString => EmptyString
  end.

(** [s.strip()] *)
Definition strip (s : string) : string := rstrip (lstrip s).

(** [s.replace(" ", "")] *)
Fixpoint remove_spaces (s : string) : string :=
  match s with
  | String c r => if code c =? 32 then remove_spaces r else String c (remove_spaces r)
  | EmptyString => EmptyString
  end.

Fixpoint string_exists (p : ascii -> bool) (s : string) : bool :=
  match s with
  | String c r => p c || string_exists p r
  | EmptyString => false
  end.

Fixpoint string_forall (p : ascii -> bool) (s : string) : bool :=
  match s with
  | String c r => p c && string_forall p r
  | EmptyString => true
  end.

(** [re.search(r'[\d\W]', s)] as a truth value: some character of [s] is
    a decimal digit or is not a word character. *)
Definition search_digit_or_nonword (s : string) : bool :=
  string_exists (fun c => is_decimal c || negb (is_word c)) s.

(** The default limit on the digits of an [int] converted from or to
    text ([sys.int_info.default_max_str_digits]). *)
Definition max_str_digits : nat := 4300.

Definition str_of_Z (z : Z) : string := NilZero.string_of_int (Z.to_int z).

(** [str(v)] *)
Definition py_str (v : pyval) : res string :=
  match v with
  | PNone => Ok "None"
  | PStr s => Ok s
  | PInt z =>
      if 10 ^ Z.of_nat max_str_digits <=? Z.abs z
      then Raise (ValueError "Exceeds the limit (4300 digits) for integer string conversion")
      else Ok (str_of_Z z)
  end.

(** Whitespace that [int()] skips around a literal: the C locale's
    [isspace] set, plus the non-ASCII spaces, which the conversion first
    turns into [' ']. *)
Definition is_int_space (c : ascii) : bool :=
  between 9 13 c || (code c =? 32) || (code c =? 133) || (code c =? 160).

Fixpoint skip_int_space (s : string) : string :=
  match s with
  | String c r => if is_int_space c then skip_int_space r else s
  | EmptyString => EmptyString
  end.

(** Scan [digit ('_'? digit)*] after its first digit. [under] tells that
    the previous character was an underscore; the result is the value,
    the number of digits and the unread rest. *)
Fixpoint scan_digits (s : string) (under : bool) (acc : Z) (n : nat)
  : option (Z * nat * string) :=
  match s with
  | String c r =>
      if is_decimal c then scan_digits r false (10 * acc + (code c - 48)) (S n)
      else if code c =? 95 then
        (if under then None else scan_digits r true acc n)
      else (if under then None else Some (acc, n, s))
  | EmptyString => if under then None else Some (acc, n, EmptyString)
  end.

Definition scan_literal (s : string) : option (Z * nat * string) :=
  match s with
  | String c r => if is_decimal c then scan_digits r false (code c - 48) 1 else None
  | EmptyString => None
  end.

Definition invalid_literal : exn := ValueError "invalid literal for int() with base 10".

(** [int(s)] for a [str]. *)
Definition int_of_str (s : string) : res Z :=
  let s1 := skip_int_space s in
  let '(neg, s2) :=
    match s1 with
    | String c r =>
        if code c =? 43 then (false, r)
        else if code c =? 45 then (true, r)
        else (false, s1)
    | EmptyString => (false, s1)
    end in
  match scan_literal s2 with
  | None => Raise invalid_literal
  | Some (v, n, rest) =>
      match skip_int_space rest with
      | EmptyString =>
          if (max_str_digits <? n)%nat
          then Raise (ValueError "Exceeds the limit (4300 digits) for integer string conversion")
          else Ok (if neg then - v else v)
      | _ => Raise invalid_literal
      end
  end.

(** [int(v)] *)
Definition py_int (v : pyval) : res Z :=
  match v with
  | PNone => Raise (TypeError "int() argument must be a string, a bytes-like object or a real number, not 'NoneType'")
  | PStr s => int_of_str s
  | PInt z => Ok z
  end.

End PyText.

(** ** The request, as Tornado hands it to a handler

    [tornado.web.RequestHandler] is not part of the repository; the two
    methods the handlers call on it are given here with the behaviour of
    the library. *)
Module Tornado.
Import PyText.

(** One value of an argument, as the bytes of the request: either valid
    UTF-8, given by the text it decodes to, or not. *)
Inductive raw_value : Type :=
  | Utf8 (text : string)
  | NotUtf8 (bytes : string).

(** [request.headers] (names normalised, as [HTTPHeaders] keeps them) and
    [request.arguments] (query and body arguments, still bytes; an
    argument may be given several times). *)
Record HTTPRequest : Type := {
  headers : gmap string string;
  arguments : gmap string (list raw_value)
}.

(** [self.request.headers.get(name)]: the value, or [None]. *)
Definition headers_get (req : HTTPRequest) (name : string) : pyval :=
  match headers req !! name with
  | Some v => PStr v
  | None => PNone
  end.

(** The characters [RequestHandler._remove_control_chars_regex] matches,
    [[\x00-\x08\x0e-\x1f]]; each is replaced by a space. *)
Definition is_control (c : ascii) : bool := between 0 8 c || between 14 31 c.

Fixpoint remove_control_chars (s : string) : string :=
  match s with
  | String c r => String (if is_control c then " "%char else c) (remove_control_chars r)
  | EmptyString => EmptyString
  end.

(** [RequestHandler.decode_argument(value, name)]: the text of the bytes,
    or [HTTPError(400, "Invalid unicode in <name>: <bytes>")] when they
    are not UTF-8; the message is kept up to the name. *)
Definition decode_argument (value : raw_value) (name : string) : res string :=
  match value with
  | Utf8 text => Ok text
  | NotUtf8 _ => Raise (HTTPError 400 (String.append "Invalid unicode in " name))
  end.

(** The loop of [_get_arguments] over the values given for [name]: each
    is decoded, its control characters are replaced and it is stripped. *)
Fixpoint decode_values (name : string) (vs : list raw_value) : res (list string) :=
  match vs with
  | [] => Ok []
  | v :: vs' =>
      match decode_argument v name with
      | Raise e => Raise e
      | Ok s =>
          match decode_values name vs' with
          | Raise e => Raise e
          | Ok values => Ok (strip (remove_control_chars s) :: values)
          end
      end
  end.

(** [RequestHandler._get_arguments(name, source, strip=True)] *)
Definition _get_arguments (req : HTTPRequest) (name : string) : res (list string) :=
  decode_values name (default [] (arguments req !! name)).

(** [self.get_argument(name, default)], with [strip] left at its default
    [True]: the last value given, decoded, its control characters replaced
    and its surrounding whitespace stripped; the default when the argument
    is absent; [MissingArgumentError] when there is no default either. A
    value that is not UTF-8 raises before any of this. *)
Definition get_argument (req : HTTPRequest) (name : string) (dflt : option pyval)
  : res pyval :=
  match _get_arguments req name with
  | Raise e => Raise e
  | Ok args =>
      match last args with
      | Some v => Ok (PStr v)
      | None =>
          match dflt with
          | Some d => Ok d
          | None => Raise (MissingArgumentError name)
          end
      end
  end.

End Tornado.

(** ** The [users] table

    The table [init_db] creates and the three statements of [main.py], with
    the meaning PostgreSQL gives them. *)
Module Store.

(** One row of [users]. *)
Record User : Type := {
  id : Z;
  name : string;
  created_at : Z;
  updated_at : Z
}.

(** The table in insertion order, and the value its [SERIAL] sequence
    hands out next (a sequence starts at 1 and only grows). *)
Record Db : Type := {
  rows : list User;
  next_id : positive
}.

(** What [init_db] leaves behind on a fresh database. *)
Definition empty_db : Db := {| rows := []; next_id := 1 |}.

(** The three statements the handlers execute, with their parameters. *)
Inductive stmt : Type :=
  | InsertUser (nm : pyval) (created updated : Z)
  | SelectPage (limit offset : Z)
  | SelectById (uid : pyval).

Definition serial_max : Z := 2147483647.
Definition bigint_min : Z := - 9223372036854775808.
Definition bigint_max : Z := 9223372036854775807.

Definition is_bigint (z : Z) : bool := (bigint_min <=? z) && (z <=? bigint_max).

Definition has_id (uid : Z) (u : User) : bool := id u =? uid.

(** [INSERT INTO users (name, created_at, updated_at) VALUES (..)
    RETURNING id]. A parameter of the wrong type or out of the [BIGINT]
    range is refused before the sequence is asked for a value; from then
    on the sequence has advanced whether or not the row is kept. [id] is a
    primary key. The result is the rows returned: the new id. *)
Definition insert_user (d : Db) (nm : pyval) (created updated : Z) : Db * res (list Z) :=
  match nm with
  | PInt _ => (d, Raise (DatabaseError "column name is of type text"))
  | _ =>
      if negb (is_bigint created && is_bigint updated) then
        (d, Raise (DatabaseError "bigint out of range"))
      else
        let new_id := Z.pos (next_id d) in
        if serial_max <? new_id then
          (d, Raise (DatabaseError "nextval: reached maximum value of sequence"))
        else
          let d1 := {| rows := rows d; next_id := Pos.succ (next_id d) |} in
          match nm with
          | PStr s =>
              if existsb (has_id new_id) (rows d) then
                (d1, Raise (DatabaseError "duplicate key value violates unique constraint"))
              else
                ({| rows := rows d ++ [{| id := new_id; name := s;
                                           created_at := created; updated_at := updated |}];
                    next_id := Pos.succ (next_id d) |},
                 Ok [new_id])
          | _ => (d1, Raise (DatabaseError "null value in column name violates not-null constraint"))
          end
  end.

(** [ORDER BY created_at DESC] orders the rows by [created_at] and says
    nothing of rows whose [created_at] is equal: their order is the
    server's choice, statement by statement. The choice is given by a
    [rank] of the rows, the lower rank first. *)
Definition goes_before (rank : User -> Z) (u v : User) : bool :=
  (created_at v <? created_at u)
  || ((created_at v =? created_at u) && (rank u <? rank v)).

Fixpoint insert_desc (rank : User -> Z) (u : User) (l : list User) : list User :=
  match l with
  | [] => [u]
  | v :: r => if goes_before rank u v then u :: l else v :: insert_desc rank u r
  end.

(** [ORDER BY created_at DESC] *)
Definition order_by_created_desc (rank : User -> Z) (l : list User) : list User :=
  fold_left (fun acc u => insert_desc rank u acc) l [].

(** [SELECT * FROM users ORDER BY created_at DESC LIMIT %s OFFSET %s].
    PostgreSQL rejects a negative [LIMIT] or [OFFSET], and one that is
    not a [BIGINT]. *)
Definition select_page (d : Db) (rank : User -> Z) (limit offset : Z) : res (list User) :=
  if negb (is_bigint offset && is_bigint limit) then
    Raise (DatabaseError "bigint out of range")
  else if offset <? 0 then Raise (DatabaseError "OFFSET must not be negative")
  else if limit <? 0 then Raise (DatabaseError "LIMIT must not be negative")
  else Ok (take (Z.to_nat limit) (drop (Z.to_nat offset) (order_by_created_desc rank (rows d)))).

(** [SELECT * FROM users WHERE id = %s] *)
Definition select_by_id (d : Db) (uid : pyval) : res (list User) :=
  match uid with
  | PInt z => Ok (List.filter (has_id z) (rows d))
  | PNone => Ok []
  | PStr _ => Raise (DatabaseError "operator does not exist: integer = text")
  end.

End Store.

Arguments Store.insert_user : simpl never.

(** ** Effects of a handler *)

Inductive event : Type :=
  | EvLog (msg : string)        (* a [logging.exception] call; the literal part of its message *)
  | EvTime (t : Z)              (* a reading of [time.time()], in microseconds *)
  | EvSql (q : Store.stmt)      (* a [cursor.execute] *)
  | EvCommit.                   (* [db.commit()] *)

(** What a handler can change: the table, how often the clock was read,
    the effects so far, oldest first, and the state of the connection
    [App.__init__] opened. The connection does not commit by itself and
    nothing rolls it back, so once a statement has failed the transaction
    it was part of stays [aborted]. *)
Record World : Type := {
  db : Store.Db;
  reads : nat;
  trace : list event;
  aborted : bool
}.

(** What a handler can only read: the process environment; the clock,
    [clock n] being [int(time.time() * 1e6)] at the [n]-th reading; and
    the server's choice among rows of equal [created_at], [tie_rank w q]
    being the rank it uses when statement [q] is executed in world [w]
    (no two statements of a run are executed in the same world: the trace
    has grown in between). *)
Record Env : Type := {
  environ : gmap string string;
  clock : nat -> Z;
  tie_rank : World -> Store.stmt -> Store.User -> Z
}.

(** Computations that thread the [World] and may raise. *)
Definition M (A : Type) : Type := World -> res A * World.

Definition ret {A} (a : A) : M A := fun w => (Ok a, w).

Definition raise {A} (e : exn) : M A := fun w => (Raise e, w).

Definition bind {A B} (m : M A) (k : A -> M B) : M B :=
  fun w =>
    match m w with
    | (Ok a, w') => k a w'
    | (Raise e, w') => (Raise e, w')
    end.

Notation "'let*' x ':=' m 'in' k" := (bind m (fun x => k))
  (at level 10, x pattern, m at level 100, k at level 200).
Notation "m ';;' k" := (bind m (fun _ => k))
  (at level 100, k at level 200, right associativity).

(** [try: m except Exception as e: h e] *)
Definition try_except {A} (m : M A) (h : exn -> M A) : M A :=
  fun w =>
    match m w with
    | (Ok a, w') => (Ok a, w')
    | (Raise e, w') => h e w'
    end.

Definition lift {A} (r : res A) : M A := fun w => (r, w).

Definition emit (e : event) : M unit :=
  fun w => (Ok tt, {| db := db w; reads := reads w; trace := trace w ++ [e];
                      aborted := aborted w |}).

(** [logging.exception(msg)] *)
Definition log_exception (msg : string) : M unit := emit (EvLog msg).

(** [int(time.time() * 1e6)] *)
Definition time_now_us (env : Env) : M Z :=
  fun w =>
    let t := clock env (reads w) in
    (Ok t, {| db := db w; reads := S (reads w); trace := trace w ++ [EvTime t];
              aborted := aborted w |}).

(** What every statement gets on a connection whose transaction is
    aborted ([psycopg.errors.InFailedSqlTransaction]). *)
Definition in_failed_transaction : exn :=
  DatabaseError "current transaction is aborted, commands ignored until end of transaction block".

(** [cursor.execute(q)]: on an aborted transaction the statement is
    refused and the table is not looked at; otherwise the statement runs,
    and a statement that fails aborts the transaction. The result is the
    rows the cursor holds. *)
Definition execute {A} (q : Store.stmt) (run : Store.Db -> Store.Db * res A) : M A :=
  fun w =>
    if aborted w then
      (Raise in_failed_transaction,
       {| db := db w; reads := reads w; trace := trace w ++ [EvSql q]; aborted := true |})
    else
      let '(d, r) := run (db w) in
      (r, {| db := d; reads := reads w; trace := trace w ++ [EvSql q];
             aborted := match r with Ok _ => false | Raise _ => true end |}).

(** The three statements of [main.py]. *)
Definition execute_insert (nm : pyval) (created updated : Z) : M (list Z) :=
  execute (Store.InsertUser nm created updated)
    (fun d => Store.insert_user d nm created updated).

Definition execute_select_page (env : Env) (limit offset : Z) : M (list Store.User) :=
  fun w =>
    execute (Store.SelectPage limit offset)
      (fun d =>
         (d, Store.select_page d (tie_rank env w (Store.SelectPage limit offset))
               limit offset)) w.

Definition execute_select_by_id (uid : pyval) : M (list Store.User) :=
  execute (Store.SelectById uid) (fun d => (d, Store.select_by_id d uid)).

(** [db.commit()]: ends the transaction. *)
Definition commit : M unit :=
  fun w => (Ok tt, {| db := db w; reads := reads w; trace := trace w ++ [EvCommit];
                      aborted := false |}).

(** [cursor.fetchone()] *)
Definition fetchone {A} (rows : list A) : option A := head rows.

(** ** Responses *)

#[local] Set Warnings "-register-all".

(** The objects handed to [json.dumps]. *)
Inductive json : Type :=
  | JNull
  | JBool (b : bool)
  | JInt (z : Z)
  | JStr (s : string)
  | JList (l : list json)
  | JDict (kv : list (string * json)).

Definition json_of_pyval (v : pyval) : json :=
  match v with
  | PNone => JNull
  | PStr s => JStr s
  | PInt z => JInt z
  end.

Record Response : Type := {
  status : Z;
  content_type : string;
  body : json
}.

(** [BaseHandler.write_json(obj, status_code=200)]: the answer a handler
    leaves, its body being the object [json.dumps] serialises. A call that
    omits [status_code] is written here with 200. *)
Definition write_json (obj : json) (status_code : Z) : Response :=
  {| status := status_code; content_type := "application/json"; body := obj |}.

(** [{"result": False, "error": msg}] *)
Definition error_body (msg : string) : json :=
  JDict [("result", JBool false); ("error", JStr msg)].

(** The [user] dictionary the handlers build. *)
Definition user_dict (uid : Z) (nm : json) (created updated : Z) : json :=
  JDict [("id", JInt uid); ("name", nm);
         ("created_at", JInt created); ("updated_at", JInt updated)].

Definition user_of_row (u : Store.User) : json :=
  user_dict (Store.id u) (JStr (Store.name u)) (Store.created_at u) (Store.updated_at u).

(** ** helper/com_key_handler.py *)

(** [validate_communication_key(key)]: [None] when the key is accepted,
    otherwise the error text. *)
Definition validate_communication_key (env : Env) (key : pyval) : M (option string) :=
  try_except
    (let* key := lift (PyText.py_str key) in
     let secretKey := environ env !! "COM_X_KEY" in
     if decide (Some key <> secretKey) then
       log_exception "Invalid key" ;;
       ret (Some "Unauthorized")
     else ret None)
    (fun e =>
       log_exception "Error while processing authentication key or invalid key" ;;
       ret (Some "Unauthorized")).

(** ** main.py *)

Module UsersHandler.
Import PyText Tornado.

(** [UsersHandler._validate_name(name)]: the pair [(name, error)]. The
    handler of the [except] clause builds its message from [name] again,
    with the conversion to text that has just failed. *)
Definition _validate_name (name : pyval) : M (pyval * option string) :=
  try_except
    (let* name := lift (py_str name) in
     if decide (name = "") then
       ret (PNone, Some "Name cannot be empty")
     else if search_digit_or_nonword (remove_spaces name) then
       ret (PNone, Some "Name cannot be filled with number or symbol")
     else ret (PStr name, None))
    (fun e =>
       let* _ := lift (py_str name) in
       log_exception "Error while parsing name" ;;
       ret (PNone, Some "Invalid name")).

(** [UsersHandler.post] *)
Definition post (env : Env) (req : HTTPRequest) : M Response :=
  let* error := validate_communication_key env (headers_get req "Com-X-Key") in
  match error with
  | Some error => ret (write_json (error_body error) 401)
  | None =>
      let* name_arg := lift (get_argument req "name" None) in
      let* (name, error) := _validate_name name_arg in
      match error with
      | Some error =>
          log_exception error ;;
          ret (write_json (error_body error) 400)
      | None =>
          let* time_now := time_now_us env in
          let* cursor := execute_insert name time_now time_now in
          let row := fetchone cursor in
          commit ;;
          match row with
          | None =>
              log_exception "Failed to insert data into database." ;;
              ret (write_json (error_body "Failed to insert data into database") 500)
          | Some row_id =>
              let user := user_dict row_id (json_of_pyval name) time_now time_now in
              ret (write_json (JDict [("result", JBool true); ("user", user)]) 200)
          end
      end
  end.

(** [UsersHandler.get] *)
Definition get (env : Env) (req : HTTPRequest) : M Response :=
  let* error := validate_communication_key env (headers_get req "Com-X-Key") in
  match error with
  | Some error => ret (write_json (error_body error) 401)
  | None =>
      let* page_num := lift (get_argument req "page_num" (Some (PInt 1))) in
      let* page_size := lift (get_argument req "page_size" (Some (PInt 10))) in
      match py_int page_num with
      | Raise _ =>
          log_exception "Error while parsing page_num" ;;
          ret (write_json (error_body "Invalid page_num") 400)
      | Ok page_num =>
          match py_int page_size with
          | Raise _ =>
              log_exception "Error while parsing page_size" ;;
              ret (write_json (error_body "Invalid page_size") 400)
          | Ok page_size =>
              let limit := page_size in
              let offset := (page_num - 1) * page_size in
              let* results := execute_select_page env limit offset in
              let users := List.map user_of_row results in
              ret (write_json (JDict [("result", JBool true); ("users", JList users)]) 200)
          end
      end
  end.

End UsersHandler.

Module UserDetailHandler.
Import PyText Tornado.

(** [UserDetailHandler._validate_user_id(user_id)]: the pair
    [(user_id, error)]. *)
Definition _validate_user_id (user_id : pyval) : M (pyval * option string) :=
  try_except
    (let* user_id := lift (py_int user_id) in
     if decide (user_id = 0) then
       ret (PNone, Some "User ID cannot be 0")
     else ret (PInt user_id, None))
    (fun e =>
       log_exception "Error while parsing user_id" ;;
       ret (PNone, Some "Invalid user_id")).

(** [UserDetailHandler.get]; [user_id] is the text the route
    [/users/([0-9]+)] captured. *)
Definition get (env : Env) (req : HTTPRequest) (user_id : string) : M Response :=
  let* error := validate_communication_key env (headers_get req "Com-X-Key") in
  match error with
  | Some error => ret (write_json (error_body error) 401)
  | None =>
      let* (user_id_validated, error) := _validate_user_id (PStr user_id) in
      match error with
      | Some error =>
          log_exception error ;;
          ret (write_json (error_body error) 400)
      | None =>
          let* cursor := execute_select_by_id user_id_validated in
          match fetchone cursor with
          | None =>
              log_exception "User is not found" ;;
              ret (write_json (error_body "User is not found") 404)
          | Some result =>
              ret (write_json (JDict [("result", JBool true); ("user", user_of_row result)]) 200)
          end
      end
  end.

End UserDetailHandler.

(** ** The service: routes and runs *)

(** A request as [make_app] routes it: [POST /users], [GET /users], and
    [GET /users/<path>] with the captured path text. *)
Inductive request : Type :=
  | Create (req : Tornado.HTTPRequest)
  | ListUsers (req : Tornado.HTTPRequest)
  | GetById (req : Tornado.HTTPRequest) (path : string).

Definition serve (env : Env) (r : request) : M Response :=
  match r with
  | Create req => UsersHandler.post env req
  | ListUsers req => UsersHandler.get env req
  | GetById req path => UserDetailHandler.get env req path
  end.

(** The world after a sequence of requests, whatever each produced. *)
Fixpoint serve_all (env : Env) (rs : list request) (w : World) : World :=
  match rs with
  | [] => w
  | r :: rs' => serve_all env rs' (snd (serve env r w))
  end.

(** ** make_app: the routes

    The application [make_app] builds, as the function from a request's
    method and path to the handler method that serves it. A rule's pattern
    is matched from the start of the path to its [$]; the rules are tried
    in the order given. *)

(** [s] without its prefix [p]. *)
Fixpoint strip_prefix (p s : string) : option string :=
  match p, s with
  | EmptyString, _ => Some s
  | String a p', String b s' => if Ascii.eqb a b then strip_prefix p' s' else None
  | String _ _, EmptyString => None
  end.

(** The longest prefix of characters in [[0-9]], and the rest. *)
Fixpoint span_digits (s : string) : string * string :=
  match s with
  | String c r =>
      if PyText.is_decimal c
      then let (d, rest) := span_digits r in (String c d, rest)
      else (EmptyString, s)
  | EmptyString => (EmptyString, EmptyString)
  end.

(** [$]: the end of the text, or the newline that ends it. *)
Definition at_end (s : string) : bool :=
  match s with
  | EmptyString => true
  | String c EmptyString => PyText.code c =? 10
  | String _ _ => false
  end.

(** [r"/users"] *)
Definition match_users (path : string) : bool :=
  match strip_prefix "/users" path with
  | Some rest => at_end rest
  | None => false
  end.

(** [r"/users/([0-9]+)"]: the captured group. *)
Definition match_user_detail (path : string) : option string :=
  match strip_prefix "/users/" path with
  | Some rest =>
      let (digits, rest') := span_digits rest in
      match digits with
      | EmptyString => None
      | String _ _ => if at_end rest' then Some digits else None
      end
  | None => None
  end.

Inductive routed : Type :=
  | Handled (r : request)
  | MethodNotAllowed      (* the handler has no such method: the framework's 405 *)
  | NoRoute.              (* no rule matches the path: the framework's 404 *)

Definition make_app (method path : string) (req : Tornado.HTTPRequest) : routed :=
  if match_users path then
    if decide (method = "POST") then Handled (Create req)
    else if decide (method = "GET") then Handled (ListUsers req)
    else MethodNotAllowed
  else
    match match_user_detail path with
    | Some user_id =>
        if decide (method = "GET") then Handled (GetById req user_id)
        else MethodNotAllowed
    | None => NoRoute
    end.

(** ** Vocabulary of the specification *)

(** The credential a request presents: its [Com-X-Key] header. *)
Definition presented_key (req : Tornado.HTTPRequest) : pyval :=
  Tornado.headers_get req "Com-X-Key".

(** The presented key, read as text, equals the configured secret. *)
Definition key_matches (env : Env) (key : pyval) : Prop :=
  exists k, PyText.py_str key = Ok k /\ environ env !! "COM_X_KEY" = Some k.

(** The credential of a request as text: its [Com-X-Key] header, a
    request without the header counting as the text "None". *)
Definition credential_text (req : Tornado.HTTPRequest) : string :=
  match Tornado.headers req !! "Com-X-Key" with
  | Some v => v
  | None => "None"
  end.

(** The credential, as text, is the configured secret. *)
Definition valid_credential (env : Env) (req : Tornado.HTTPRequest) : Prop :=
  environ env !! "COM_X_KEY" = Some (credential_text req).

(** The world after [evs] more effects and nothing else. *)
Definition logged (w : World) (evs : list event) : World :=
  {| db := db w; reads := reads w; trace := trace w ++ evs; aborted := aborted w |}.

(** The world with its transaction aborted. *)
Definition failed (w : World) : World :=
  {| db := db w; reads := reads w; trace := trace w; aborted := true |}.

(** An answer with a JSON body. *)
Definition answer (code : Z) (b : json) : Response :=
  {| status := code; content_type := "application/json"; body := b |}.

(** The answer [{"result": false, "error": msg}] with status [code]. *)
Definition error_answer (code : Z) (msg : string) : Response :=
  answer code (JDict [("result", JBool false); ("error", JStr msg)]).

(** The 401 answer. *)
Definition unauthorized : Response := error_answer 401 "Unauthorized".

(** The characters of a text. *)
Abbreviation chars := list_ascii_of_string.

(** The value of argument [name] a request submits, as [get_argument]
    reads it; [None] when the request has no such argument, or one that
    does not decode. *)
Definition submitted (req : Tornado.HTTPRequest) (name : string) : option string :=
  match Tornado._get_arguments req name with
  | Ok args => last args
  | Raise _ => None
  end.

(** The texts of values that are all UTF-8. *)
Fixpoint texts (vs : list Tornado.raw_value) : option (list string) :=
  match vs with
  | [] => Some []
  | Tornado.Utf8 s :: vs' => option_map (cons s) (texts vs')
  | Tornado.NotUtf8 _ :: _ => None
  end.

(** The value as the client sent it: the last one given for [name], the
    values given for [name] being UTF-8. *)
Definition sent (req : Tornado.HTTPRequest) (name : string) : option string :=
  match texts (default [] (Tornado.arguments req !! name)) with
  | Some l => last l
  | None => None
  end.

Definition first_char (s : string) : option ascii :=
  match s with
  | String c _ => Some c
  | EmptyString => None
  end.

Fixpoint last_char (s : string) : option ascii :=
  match s with
  | String c EmptyString => Some c
  | String _ r => last_char r
  | EmptyString => None
  end.





(** A name [_validate_name] lets through: not empty, and every character
    is a space or a word character that is not a decimal digit. *)
Definition valid_name (n : string) : Prop :=
  n <> ""
  /\ forall c, In c (chars n) ->
       PyText.code c = 32 \/ (PyText.is_word c = true /\ PyText.is_decimal c = false).

(** Every value given for [name] is UTF-8. *)
Definition decodable (req : Tornado.HTTPRequest) (name : string) : Prop :=
  exists l, texts (default [] (Tornado.arguments req !! name)) = Some l.

(** The table takes one more row stamped [t]: the sequence is not
    exhausted, [t] is a [BIGINT], and the next id is free. *)
Definition store_accepts (d : Store.Db) (t : Z) : Prop :=
  Z.pos (Store.next_id d) <= Store.serial_max
  /\ Store.is_bigint t = true
  /\ forall u, In u (Store.rows d) -> Store.id u <> Z.pos (Store.next_id d).

(** A user as the answers show it. *)
Definition user_json (uid : Z) (n : string) (created updated : Z) : json :=
  JDict [("id", JInt uid); ("name", JStr n);
         ("created_at", JInt created); ("updated_at", JInt updated)].

(** The 200 answer that carries one user. *)
Definition user_response (uid : Z) (n : string) (created updated : Z) : Response :=
  answer 200 (JDict [("result", JBool true); ("user", user_json uid n created updated)]).

(** The 200 answer that carries a page of users. *)
Definition users_response (page : list Store.User) : Response :=
  answer 200
    (JDict [("result", JBool true);
            ("users",
             JList (List.map
                      (fun u => user_json (Store.id u) (Store.name u)
                                  (Store.created_at u) (Store.updated_at u))
                      page))]).

(** The 404 answer. *)
Definition not_found : Response := error_answer 404 "User is not found".

(** The 400 answer. *)
Definition bad_request (msg : string) : Response := error_answer 400 msg.

(** [row] is the one row of the table with id [uid]. *)
Definition sole_row (uid : Z) (row : Store.User) (d : Store.Db) : Prop :=
  List.filter (Store.has_id uid) (Store.rows d) = [row].

(** No row has an id the sequence has yet to hand out. *)
Definition ids_below_next (d : Store.Db) : Prop :=
  forall u, In u (Store.rows d) -> Store.id u < Z.pos (Store.next_id d).

(** The primary key: no two rows share an id. *)
Definition ids_unique (d : Store.Db) : Prop :=
  NoDup (List.map Store.id (Store.rows d)).

(** [page_num] and [page_size] as List coerces them, with their defaults. *)
Definition page_num_of (req : Tornado.HTTPRequest) : res Z :=
  match Tornado.get_argument req "page_num" (Some (PInt 1)) with
  | Ok v => PyText.py_int v
  | Raise e => Raise e
  end.

Definition page_size_of (req : Tornado.HTTPRequest) : res Z :=
  match Tornado.get_argument req "page_size" (Some (PInt 10)) with
  | Ok v => PyText.py_int v
  | Raise e => Raise e
  end.

(** An effect that changes nothing: a log entry or a [SELECT]. *)
Definition is_read_effect (e : event) : bool :=
  match e with
  | EvLog _ => true
  | EvSql (Store.SelectPage _ _) => true
  | EvSql (Store.SelectById _) => true
  | _ => false
  end.

Definition is_log (e : event) : bool :=
  match e with
  | EvLog _ => true
  | _ => false
  end.

(** The row Create stores. *)
Definition new_row (uid : Z) (n : string) (t : Z) : Store.User :=
  {| Store.id := uid; Store.name := n; Store.created_at := t; Store.updated_at := t |}.

(** No whitespace at either end. *)
Definition trimmed (s : string) : Prop :=
  forall c, first_char s = Some c \/ last_char s = Some c -> PyText.is_space c = false.

(** What holds of a row the service stored: its id came from the sequence,
    one reading of the clock is both its timestamps, and its name passed
    [get_argument] and [_validate_name]. *)
Definition row_ok (env : Env) (w : World) (u : Store.User) : Prop :=
  0 < Store.id u < Z.pos (Store.next_id (db w))
  /\ Store.id u <= Store.serial_max
  /\ Store.updated_at u = Store.created_at u
  /\ Store.is_bigint (Store.created_at u) = true
  /\ (exists k, (k < reads w)%nat /\ Store.created_at u = clock env k)
  /\ valid_name (Store.name u)
  /\ trimmed (Store.name u).

(** The table as the service keeps it: ids grow along the rows, and every
    row is one the service stored. *)
Definition table_ok (env : Env) (w : World) : Prop :=
  StronglySorted Z.lt (List.map Store.id (Store.rows (db w)))
  /\ forall u, In u (Store.rows (db w)) -> row_ok env w u.

(** The ASCII characters a name may have: a letter, an underscore or a
    space. *)
Definition is_ascii_name_char (c : ascii) : bool :=
  PyText.between 65 90 c || PyText.between 97 122 c
  || (PyText.code c =? 95) || (PyText.code c =? 32).

(** The requests that List or GetById serves. *)
Definition is_read (r : request) : bool :=
  match r with
  | Create _ => false
  | ListUsers _ | GetById _ _ => true
  end.

(** [created_at] descending. *)
Definition newer_first (a b : Store.User) : Prop :=
  Store.created_at b <= Store.created_at a.

(** What a reading handler leaves of the world: the table, the sequence
    and the clock as they were, more effects that only read, and a
    transaction that stays aborted if it was. *)
Definition only_read (w w' : World) : Prop :=
  exists evs,
    db w' = db w /\ reads w' = reads w /\ trace w' = trace w ++ evs
    /\ forallb is_read_effect evs = true
    /\ (aborted w = true -> aborted w' = true).

(** Rows that are the same in every column. *)
Definition same_row (u v : Store.User) : bool :=
  (Store.id u =? Store.id v) && String.eqb (Store.name u) (Store.name v)
  && (Store.created_at u =? Store.created_at v)
  && (Store.updated_at u =? Store.updated_at v).

(** The place of a row in an ordering, as a rank. *)
Fixpoint position (s : list Store.User) (u : Store.User) : Z :=
  match s with
  | [] => 0
  | v :: r => if same_row v u then 0 else 1 + position r u
  end.

(** [created_at] descending and, among equal ones, [rank] ascending. *)
Definition ranked_first (rank : Store.User -> Z) (a b : Store.User) : Prop :=
  Store.created_at b < Store.created_at a
  \/ (Store.created_at b = Store.created_at a /\ rank a <= rank b).

(** ** Sample inputs *)

(** An environment without [COM_X_KEY]. *)
Definition unset_env : Env :=
  {| environ := ∅; clock := fun n => Z.of_nat n; tie_rank := fun _ _ _ => 0 |}.

(** An environment whose secret is the text "None". *)
Definition none_env : Env :=
  {| environ := {["COM_X_KEY" := "None"]}; clock := fun n => Z.of_nat n;
     tie_rank := fun _ _ _ => 0 |}.

Definition sample_env : Env :=
  {| environ := {["COM_X_KEY" := "s3cret"]};
     clock := fun n => 1700000000000000 + Z.of_nat n;
     tie_rank := fun _ _ _ => 0 |}.

(** A request that presents [key] (or no key) and the given arguments,
    as bytes. *)
Definition raw_request (key : option string)
  (args : list (string * list Tornado.raw_value)) : Tornado.HTTPRequest :=
  {| Tornado.headers :=
       match key with Some k => {["Com-X-Key" := k]} | None => ∅ end;
     Tornado.arguments := list_to_map args |}.

(** The same with arguments that are text. *)
Definition sample_request (key : option string) (args : list (string * list string))
  : Tornado.HTTPRequest :=
  raw_request key (List.map (fun a => (fst a, List.map Tornado.Utf8 (snd a))) args).

(** The service as it starts: an empty table, a connection just opened. *)
Definition fresh_world : World :=
  {| db := Store.empty_db; reads := 0; trace := []; aborted := false |}.

(** The secret of [sample_env], a clock that stands still, and a server
    that orders rows of equal [created_at] by id for one statement and
    against it for the next. *)
Definition fickle_env : Env :=
  {| environ := {["COM_X_KEY" := "s3cret"]};
     clock := fun _ => 5;
     tie_rank := fun w _ u =>
                   if Nat.even (length (trace w)) then Store.id u else - Store.id u |}.

Definition valid_key : option string := Some "s3cret".

Definition jane_request : Tornado.HTTPRequest :=
  sample_request valid_key [("name", ["Jane Doe"])].

(** The world after Jane Doe was created on a fresh table. *)
Definition world_with_jane : World :=
  snd (UsersHandler.post sample_env jane_request fresh_world).

Definition john_request : Tornado.HTTPRequest :=
  sample_request valid_key [("name", ["John"])].

(** The world after Jane Doe and then John were created. *)
Definition world_with_two : World :=
  serve_all sample_env [Create jane_request; Create john_request] fresh_world.

(** ** Proof tools *)

Ltac unfold_handlers :=
  unfold serve, UsersHandler.post, UsersHandler.get, UserDetailHandler.get,
    UsersHandler._validate_name, UserDetailHandler._validate_user_id,
    validate_communication_key, execute_insert, execute_select_page,
    execute_select_by_id, execute, time_now_us, commit, log_exception, emit,
    try_except, bind, lift, ret, raise, fetchone in *.

(** Split on the innermost scrutinee of the goal. *)
Ltac split_scrutinee :=
  match goal with
  | |- context [match ?x with _ => _ end] =>
      lazymatch x with
      | context [match _ with _ => _ end] => fail
      | _ => destruct x eqn:?
      end
  end.

Ltac handler_paths := unfold_handlers; repeat (simpl in *; split_scrutinee).

(** * Properties *)

(** ** The key validator *)

Lemma presented_key_text req :
  presented_key req = PNone \/ exists s, presented_key req = PStr s.
Proof.
  unfold presented_key, Tornado.headers_get.
  destruct (Tornado.headers req !! "Com-X-Key"); eauto.
Qed.

Lemma validate_key_accepts env key w :
  key_matches env key -> validate_communication_key env key w = (Ok None, w).
Proof.
  intros (k & Hk & Hs).
  unfold validate_communication_key, try_except, bind, lift.
  rewrite Hk, Hs. destruct (decide (Some k <> Some k)); [congruence | reflexivity].
Qed.

Lemma validate_key_rejects env key k w :
  PyText.py_str key = Ok k -> ~ key_matches env key ->
  validate_communication_key env key w
  = (Ok (Some "Unauthorized"), logged w [EvLog "Invalid key"]).
Proof.
  intros Hk Hno.
  unfold validate_communication_key, try_except, bind, lift.
  rewrite Hk. destruct (decide (Some k <> environ env !! "COM_X_KEY")) as [_ | Heq].
  - reflexivity.
  - exfalso. apply Hno. exists k. split; [assumption |].
    destruct (environ env !! "COM_X_KEY") as [s |] eqn:E.
    + destruct (decide (k = s)) as [-> | Hne]; [reflexivity |].
      exfalso. apply Heq. congruence.
    + exfalso. apply Heq. discriminate.
Qed.

Lemma presented_key_rejected env req w :
  ~ key_matches env (presented_key req) ->
  validate_communication_key env (presented_key req) w
  = (Ok (Some "Unauthorized"), logged w [EvLog "Invalid key"]).
Proof.
  intros Hno.
  destruct (presented_key_text req) as [E | [s E]]; rewrite E in *;
    eapply validate_key_rejects; eauto; reflexivity.
Qed.

(** [str()] of the header a request presents is its credential text. *)
Lemma presented_key_credential req :
  PyText.py_str (presented_key req) = Ok (credential_text req).
Proof.
  unfold presented_key, Tornado.headers_get, credential_text.
  destruct (Tornado.headers req !! "Com-X-Key"); reflexivity.
Qed.

Lemma key_matches_credential env req :
  key_matches env (presented_key req) <-> valid_credential env req.
Proof.
  unfold key_matches, valid_credential. rewrite presented_key_credential. split.
  - intros (k & [= <-] & Hs). exact Hs.
  - intros Hs. eauto.
Qed.

(** C1, as the code has it. A request to Create, List or GetById whose
    credential, as text (an absent Com-X-Key header counting as the text
    "None"), is not the configured secret is answered with status 401 and
    the body [{"result": false, "error": "Unauthorized"}], whatever its
    arguments, its path, the table and the state of the connection; the only
    effect is the validator's log entry, so the check comes before any field
    validation, clock reading or statement. *)
Theorem invalid_key_is_unauthorized env req path w :
  environ env !! "COM_X_KEY" <> Some (credential_text req) ->
  let outcome :=
    (Ok {| status := 401; content_type := "application/json";
           body := JDict [("result", JBool false); ("error", JStr "Unauthorized")] |},
     {| db := db w; reads := reads w; trace := trace w ++ [EvLog "Invalid key"];
        aborted := aborted w |}) in
  UsersHandler.post env req w = outcome
  /\ UsersHandler.get env req w = outcome
  /\ UserDetailHandler.get env req path w = outcome.
Proof.
  intros Hno outcome.
  assert (~ key_matches env (presented_key req)) as Hno'.
  { rewrite key_matches_credential. exact Hno. }
  pose proof (presented_key_rejected env req w Hno') as Hv.
  unfold presented_key in Hv.
  unfold UsersHandler.post, UsersHandler.get, UserDetailHandler.get, bind.
  rewrite Hv. repeat split.
Qed.

(** C10. [str()] makes an absent Com-X-Key header ([None]) and a header
    whose value is the text "None" the same key: for every configured
    secret the validator gives the same outcome on both; and when the
    secret is the text "None", a request without the header is accepted. *)
Theorem absent_key_is_the_text_None :
  (forall env w,
      validate_communication_key env PNone w
      = validate_communication_key env (PStr "None") w)
  /\ (forall env req w,
         environ env !! "COM_X_KEY" = Some "None" ->
         Tornado.headers req !! "Com-X-Key" = None ->
         validate_communication_key env (presented_key req) w = (Ok None, w)).
Proof.
  split.
  - reflexivity.
  - intros env req w Hs Hh. apply validate_key_accepts.
    unfold presented_key, Tornado.headers_get. rewrite Hh.
    exists "None". split; [reflexivity | exact Hs].
Qed.

(** ** Text *)

Lemma string_exists_spec p s :
  PyText.string_exists p s = true <-> exists c, In c (chars s) /\ p c = true.
Proof.
  induction s as [| a s IH]; simpl.
  - split; [discriminate | intros (c & [] & _)].
  - rewrite orb_true_iff, IH. split.
    + intros [Ha | (c & Hc & Hp)]; [exists a | exists c]; auto.
    + intros (c & [<- | Hc] & Hp); [left | right]; eauto.
Qed.

Lemma string_exists_false p s :
  PyText.string_exists p s = false <-> forall c, In c (chars s) -> p c = false.
Proof.
  rewrite <- not_true_iff_false, string_exists_spec. split.
  - intros Hno c Hc. apply not_true_iff_false. intros Hp. apply Hno. eauto.
  - intros Hall (c & Hc & Hp). rewrite (Hall c Hc) in Hp. discriminate.
Qed.

(** [remove_spaces] drops exactly the space characters and keeps the rest
    in order. *)
Lemma remove_spaces_filter s :
  chars (PyText.remove_spaces s)
  = List.filter (fun c => negb (PyText.code c =? 32)) (chars s).
Proof.
  induction s as [| a s IH]; simpl; [reflexivity |].
  destruct (PyText.code a =? 32); simpl; congruence.
Qed.

Lemma In_remove_spaces c s :
  In c (chars (PyText.remove_spaces s)) <-> In c (chars s) /\ PyText.code c <> 32.
Proof.
  rewrite remove_spaces_filter, filter_In, negb_true_iff, Z.eqb_neq. reflexivity.
Qed.


(** ** Name validation *)

(** [_validate_name] on an input whose text is [s], by the two tests it
    makes. *)
Lemma validate_name_text v s w :
  PyText.py_str v = Ok s ->
  UsersHandler._validate_name v w
  = (Ok (if decide (s = "") then (PNone, Some "Name cannot be empty")
         else if PyText.search_digit_or_nonword (PyText.remove_spaces s)
              then (PNone, Some "Name cannot be filled with number or symbol")
              else (PStr s, None)),
     w).
Proof.
  intros Hs. unfold UsersHandler._validate_name, try_except, bind, lift.
  rewrite Hs. destruct (decide (s = "")); [reflexivity |].
  destruct (PyText.search_digit_or_nonword _); reflexivity.
Qed.

Lemma search_finds s :
  PyText.search_digit_or_nonword s = true
  <-> exists c, In c (chars s)
                /\ (PyText.is_decimal c = true \/ PyText.is_word c = false).
Proof.
  unfold PyText.search_digit_or_nonword. rewrite string_exists_spec.
  split; intros (c & Hc & Hp); exists c; (split; [assumption |]).
  - apply orb_true_iff in Hp as [Hp | Hp]; [left | right]; [assumption |].
    apply negb_true_iff. exact Hp.
  - destruct Hp as [-> | ->]; [reflexivity | apply orb_true_r].
Qed.




(** When [str()] itself fails, so does the message of the [except] clause,
    which formats the same value: the error leaves [_validate_name], and
    "Invalid name" is never returned. *)
Lemma validate_name_uncoercible v e w :
  PyText.py_str v = Raise e ->
  UsersHandler._validate_name v w = (Raise e, w).
Proof.
  intros Hs. unfold UsersHandler._validate_name, try_except, bind, lift.
  rewrite Hs. reflexivity.
Qed.

(** What acceptance tells about the input. *)
Lemma validate_name_accepted_inv v n w w' :
  UsersHandler._validate_name v w = (Ok (PStr n, None), w') ->
  PyText.py_str v = Ok n /\ n <> "" /\ w' = w
  /\ PyText.search_digit_or_nonword (PyText.remove_spaces n) = false.
Proof.
  unfold UsersHandler._validate_name, try_except, bind, lift.
  destruct (PyText.py_str v) as [s | e]; [| discriminate].
  destruct (decide (s = "")); [discriminate |].
  destruct (PyText.search_digit_or_nonword (PyText.remove_spaces s)) eqn:E;
    [discriminate |].
  intros [= <- <-]. auto.
Qed.

(** C8, as the code has it. Every character of an accepted name, spaces
    aside, is a word character that is not a decimal digit: a letter, an
    underscore, or a numeric character outside the decimal digits (a
    superscript or a fraction). *)
Theorem accepted_name_characters v n w w' :
  UsersHandler._validate_name v w = (Ok (PStr n, None), w') ->
  forall c, In c (chars (PyText.remove_spaces n)) ->
    PyText.is_decimal c = false
    /\ (PyText.is_alpha c = true \/ c = "_"%char \/ PyText.is_other_numeric c = true).
Proof.
  intros Hacc c Hc.
  apply validate_name_accepted_inv in Hacc as (_ & _ & _ & Hsearch).
  pose proof (proj1 (string_exists_false _ _) Hsearch c Hc) as Hp. simpl in Hp.
  apply orb_false_iff in Hp as [Hd Hw]. apply negb_false_iff in Hw.
  split; [assumption |].
  unfold PyText.is_word, PyText.is_alnum in Hw. rewrite Hd in Hw.
  rewrite orb_false_r in Hw.
  apply orb_true_iff in Hw as [Hw | Hw].
  - apply orb_true_iff in Hw as [Hw | Hw]; auto.
  - right. left. apply Z.eqb_eq in Hw. unfold PyText.code in Hw.
    rewrite <- (ascii_N_embedding c). replace (N_of_ascii c) with 95%N by lia.
    reflexivity.
Qed.

(** ** Create *)

Lemma valid_name_accepted n w :
  valid_name n -> UsersHandler._validate_name (PStr n) w = (Ok (PStr n, None), w).
Proof.
  intros [Hne Hall]. rewrite (validate_name_text (PStr n) n w eq_refl).
  destruct (decide (n = "")); [contradiction |].
  destruct (PyText.search_digit_or_nonword _) eqn:E; [| reflexivity].
  apply search_finds in E as (c & Hc & Hbad).
  apply In_remove_spaces in Hc as [Hc Hsp].
  destruct (Hall c Hc) as [? | [? ?]]; [contradiction |].
  destruct Hbad; congruence.
Qed.

Lemma last_map {A B} (f : A -> B) (l : list A) :
  last (List.map f l) = option_map f (last l).
Proof.
  induction l as [| a [| b l] IH]; try reflexivity. exact IH.
Qed.

Lemma get_argument_submitted req name dflt v :
  submitted req name = Some v -> Tornado.get_argument req name dflt = Ok (PStr v).
Proof.
  unfold submitted, Tornado.get_argument.
  destruct (Tornado._get_arguments req name); [| discriminate].
  intros ->. reflexivity.
Qed.

(** What [get_argument] makes of the values sent for [name]. *)
Lemma decode_values_texts name vs :
  Tornado.decode_values name vs
  = match texts vs with
    | Some l => Ok (List.map (fun v => PyText.strip (Tornado.remove_control_chars v)) l)
    | None => Raise (HTTPError 400 (String.append "Invalid unicode in " name))
    end.
Proof.
  induction vs as [| [s | b] vs IH]; simpl; [reflexivity | | reflexivity].
  rewrite IH. destruct (texts vs); reflexivity.
Qed.

Lemma submitted_sent req name n :
  submitted req name = Some n ->
  exists v, sent req name = Some v
            /\ n = PyText.strip (Tornado.remove_control_chars v).
Proof.
  unfold submitted, sent, Tornado._get_arguments. rewrite decode_values_texts.
  destruct (texts _) as [l |]; [| discriminate].
  rewrite last_map. destruct (last l) as [v |]; [| discriminate].
  intros [= <-]. eauto.
Qed.

Lemma sent_submitted req name v :
  sent req name = Some v ->
  submitted req name = Some (PyText.strip (Tornado.remove_control_chars v)).
Proof.
  unfold submitted, sent, Tornado._get_arguments. rewrite decode_values_texts.
  destruct (texts _) as [l |]; [| discriminate].
  rewrite last_map. intros ->. reflexivity.
Qed.




(** ** Whitespace-only names *)

Lemma lstrip_spaces s :
  (forall c, In c (chars s) -> c = " "%char) -> PyText.lstrip s = "".
Proof.
  induction s as [| a s IH]; simpl; intros Hall; [reflexivity |].
  rewrite (Hall a (or_introl eq_refl)). simpl. apply IH. auto.
Qed.

Lemma remove_control_chars_spaces s :
  (forall c, In c (chars s) -> c = " "%char) -> Tornado.remove_control_chars s = s.
Proof.
  induction s as [| a s IH]; simpl; intros Hall; [reflexivity |].
  rewrite IH by auto. rewrite (Hall a (or_introl eq_refl)). reflexivity.
Qed.

(** C9, as the code has it. [_validate_name] returns a non-empty text of
    spaces as valid, for it compares with the empty text before removing
    spaces. Create never hands it such a text: [get_argument] strips the
    value, so a name submitted as spaces only arrives empty and is answered
    400 "Name cannot be empty", and nothing is stored. *)
Theorem spaces_only_name s :
  s <> "" ->
  (forall c, In c (chars s) -> c = " "%char) ->
  (forall w, UsersHandler._validate_name (PStr s) w = (Ok (PStr s, None), w))
  /\ (forall env req w,
         key_matches env (presented_key req) ->
         sent req "name" = Some s ->
         UsersHandler.post env req w
         = (Ok (bad_request "Name cannot be empty"),
            logged w [EvLog "Name cannot be empty"])).
Proof.
  intros Hne Hall. split.
  - intros w. apply valid_name_accepted. split; [assumption |].
    intros c Hc. left. rewrite (Hall c Hc). reflexivity.
  - intros env req w Hkey Hlast.
    assert (submitted req "name" = Some "") as Hsub.
    { rewrite (sent_submitted _ _ _ Hlast). unfold PyText.strip.
      rewrite (remove_control_chars_spaces _ Hall), (lstrip_spaces _ Hall).
      reflexivity. }
    unfold UsersHandler.post, bind.
    unfold presented_key in Hkey. rewrite (validate_key_accepts _ _ _ Hkey).
    unfold lift. rewrite (get_argument_submitted _ _ _ _ Hsub). reflexivity.
Qed.

(** ** What [get_argument] does to a name *)

Lemma word_is_plain c :
  PyText.is_word c = true -> Tornado.is_control c = false /\ PyText.is_space c = false.
Proof.
  destruct c as [[|] [|] [|] [|] [|] [|] [|] [|]];
    vm_compute; intros H; try discriminate H; split; reflexivity.
Qed.

Lemma valid_name_chars n c :
  valid_name n -> In c (chars n) ->
  Tornado.is_control c = false /\ (PyText.is_space c = true -> PyText.code c = 32).
Proof.
  intros [_ Hall] Hc. destruct (Hall c Hc) as [Hsp | [Hw _]].
  - split; [| auto]. unfold Tornado.is_control, PyText.between. rewrite Hsp. reflexivity.
  - destruct (word_is_plain c Hw) as [-> ->]. split; [reflexivity | discriminate].
Qed.

Lemma remove_control_chars_plain s :
  (forall c, In c (chars s) -> Tornado.is_control c = false) ->
  Tornado.remove_control_chars s = s.
Proof.
  induction s as [| a s IH]; simpl; intros Hall; [reflexivity |].
  rewrite (Hall a (or_introl eq_refl)), IH by auto. reflexivity.
Qed.

Lemma rstrip_plain s :
  (forall c, last_char s = Some c -> PyText.is_space c = false) ->
  PyText.rstrip s = s.
Proof.
  induction s as [| a s IH]; [reflexivity |].
  intros Hlast. cbn [PyText.rstrip]. destruct s as [| b s].
  - simpl. rewrite (Hlast a eq_refl). reflexivity.
  - rewrite IH by (intros c Hc; apply Hlast; exact Hc). reflexivity.
Qed.

Lemma last_char_In s c : last_char s = Some c -> In c (chars s).
Proof.
  induction s as [| a s IH]; [discriminate |].
  destruct s as [| b s]; [intros [= ->]; left; reflexivity |].
  intros H. right. apply IH. exact H.
Qed.

(** A valid name that neither starts nor ends with a space reaches the
    handler as it was sent. *)
Lemma valid_name_is_read_as_sent req n :
  sent req "name" = Some n ->
  valid_name n ->
  (forall c, first_char n = Some c \/ last_char n = Some c -> PyText.code c <> 32) ->
  submitted req "name" = Some n.
Proof.
  intros Hsent Hvalid Hedges.
  rewrite (sent_submitted _ _ _ Hsent). f_equal.
  rewrite remove_control_chars_plain
    by (intros c Hc; apply (valid_name_chars n c Hvalid Hc)).
  unfold PyText.strip.
  assert (PyText.lstrip n = n) as ->.
  { destruct n as [| a r]; [reflexivity |]. simpl.
    destruct (PyText.is_space a) eqn:E; [| reflexivity].
    exfalso. apply (Hedges a (or_introl eq_refl)).
    apply (valid_name_chars _ a Hvalid); [left; reflexivity | exact E]. }
  apply rstrip_plain. intros c Hc.
  destruct (PyText.is_space c) eqn:E; [| reflexivity].
  exfalso. apply (Hedges c (or_intror Hc)).
  apply (valid_name_chars _ c Hvalid); [apply last_char_In; exact Hc | exact E].
Qed.

(** ** List *)

(** The values given for [name] are all UTF-8. *)
Lemma decodable_get_argument req name dflt :
  decodable req name ->
  Tornado.get_argument req name dflt
  = match submitted req name with
    | Some v => Ok (PStr v)
    | None =>
        match dflt with
        | Some d => Ok d
        | None => Raise (MissingArgumentError name)
        end
    end.
Proof.
  intros [l Hl]. unfold Tornado.get_argument, submitted, Tornado._get_arguments.
  rewrite decode_values_texts, Hl. destruct (last _); reflexivity.
Qed.

(** List with a valid credential, once both arguments are read. *)
Lemma list_read env req w v1 v2 :
  valid_credential env req ->
  Tornado.get_argument req "page_num" (Some (PInt 1)) = Ok v1 ->
  Tornado.get_argument req "page_size" (Some (PInt 10)) = Ok v2 ->
  UsersHandler.get env req w
  = match PyText.py_int v1, PyText.py_int v2 with
    | Raise _, _ =>
        (Ok (bad_request "Invalid page_num"),
         logged w [EvLog "Error while parsing page_num"])
    | Ok _, Raise _ =>
        (Ok (bad_request "Invalid page_size"),
         logged w [EvLog "Error while parsing page_size"])
    | Ok num, Ok size =>
        let limit := size in
        let offset := (num - 1) * size in
        if aborted w then
          (Raise in_failed_transaction,
           failed (logged w [EvSql (Store.SelectPage limit offset)]))
        else
          match Store.select_page (db w) (tie_rank env w (Store.SelectPage limit offset))
                  limit offset with
          | Ok page =>
              (Ok (users_response page), logged w [EvSql (Store.SelectPage limit offset)])
          | Raise e =>
              (Raise e, failed (logged w [EvSql (Store.SelectPage limit offset)]))
          end
    end.
Proof.
  intros Hkey H1 H2. apply key_matches_credential in Hkey.
  unfold UsersHandler.get, bind.
  unfold presented_key in Hkey. rewrite (validate_key_accepts _ _ _ Hkey).
  unfold lift. rewrite H1, H2.
  destruct (PyText.py_int v1) as [num | e1]; [| reflexivity].
  destruct (PyText.py_int v2) as [size | e2]; [| reflexivity].
  unfold execute_select_page, execute. cbn zeta.
  destruct w as [d k tr [|]]; cbn [aborted db reads trace]; [reflexivity |].
  destruct (Store.select_page _ _ _ _); reflexivity.
Qed.

(** C5, as the code has it. A List request with a valid credential whose
    values for [page_num] and [page_size] are UTF-8. [page_num] is 1 and
    [page_size] is 10 when not given. A [page_num] that [int()] refuses is
    answered with status 400 and the body
    [{"result": false, "error": "Invalid page_num"}], whatever [page_size]
    is; then a [page_size] that [int()] refuses is answered with status 400
    and the body [{"result": false, "error": "Invalid page_size"}].
    Otherwise the statement is executed with [LIMIT page_size] and [OFFSET
    (page_num - 1) * page_size], whatever their signs, and it is the only
    effect; on a connection whose transaction is not aborted the answer is
    what the store makes of the statement. *)
Theorem list_pagination env req w :
  valid_credential env req ->
  decodable req "page_num" ->
  decodable req "page_size" ->
  let page_num :=
    match submitted req "page_num" with
    | Some v => PyText.py_int (PStr v)
    | None => Ok 1
    end in
  let page_size :=
    match submitted req "page_size" with
    | Some v => PyText.py_int (PStr v)
    | None => Ok 10
    end in
  let r := UsersHandler.get env req w in
  match page_num, page_size with
  | Raise _, _ =>
      r = (Ok {| status := 400; content_type := "application/json";
                 body := JDict [("result", JBool false);
                                ("error", JStr "Invalid page_num")] |},
           logged w [EvLog "Error while parsing page_num"])
  | Ok _, Raise _ =>
      r = (Ok {| status := 400; content_type := "application/json";
                 body := JDict [("result", JBool false);
                                ("error", JStr "Invalid page_size")] |},
           logged w [EvLog "Error while parsing page_size"])
  | Ok num, Ok size =>
      let q := Store.SelectPage size ((num - 1) * size) in
      db (snd r) = db w /\ reads (snd r) = reads w
      /\ trace (snd r) = trace w ++ [EvSql q]
      /\ (aborted w = false ->
          r = match Store.select_page (db w) (tie_rank env w q)
                      size ((num - 1) * size) with
              | Ok page =>
                  (Ok {| status := 200; content_type := "application/json";
                         body := JDict [("result", JBool true);
                                        ("users",
                                         JList (List.map
                                           (fun u =>
                                              JDict [("id", JInt (Store.id u));
                                                     ("name", JStr (Store.name u));
                                                     ("created_at", JInt (Store.created_at u));
                                                     ("updated_at", JInt (Store.updated_at u))])
                                           page))] |},
                   logged w [EvSql q])
              | Raise e => (Raise e, failed (logged w [EvSql q]))
              end)
  end.
Proof.
  intros Hkey Hd1 Hd2. cbn zeta.
  pose proof (decodable_get_argument req "page_num" (Some (PInt 1)) Hd1) as H1.
  pose proof (decodable_get_argument req "page_size" (Some (PInt 10)) Hd2) as H2.
  destruct (submitted req "page_num") as [pn |];
    destruct (submitted req "page_size") as [ps |];
    rewrite (list_read env req w _ _ Hkey H1 H2);
    cbn [PyText.py_int];
    repeat match goal with
      | |- context [PyText.int_of_str ?x] => destruct (PyText.int_of_str x)
      end;
    try reflexivity;
    (destruct w as [d k tr [|]]; cbn [aborted db reads trace];
     [repeat split; discriminate |];
     destruct (Store.select_page _ _ _ _); repeat split).
Qed.

(** ** GetById *)

Lemma filter_none_without {A} (p : A -> bool) (l : list A) :
  (forall x, In x l -> p x = false) -> List.filter p l = [].
Proof.
  induction l as [| a l IH]; simpl; intros Hall; [reflexivity |].
  rewrite (Hall a (or_introl eq_refl)). apply IH. auto.
Qed.

Lemma head_filter_some {A} (p : A -> bool) (l : list A) x :
  In x l -> p x = true ->
  exists y, head (List.filter p l) = Some y /\ In y l /\ p y = true.
Proof.
  induction l as [| a l IH]; simpl; [intros [] |].
  intros Hin Hp. destruct (p a) eqn:Ea.
  - exists a. simpl. auto.
  - destruct Hin as [-> | Hin]; [congruence |].
    destruct (IH Hin Hp) as (y & Hy & Hyin & Hyp). exists y. auto.
Qed.

(** GetById with a valid credential and a path that reads as a non-zero
    integer: the statement is executed, and on a connection whose
    transaction is aborted it is refused. *)
Lemma get_by_id_validated env req path w n :
  key_matches env (presented_key req) ->
  PyText.py_int (PStr path) = Ok n ->
  n <> 0 ->
  UserDetailHandler.get env req path w
  = if aborted w then
      (Raise in_failed_transaction, failed (logged w [EvSql (Store.SelectById (PInt n))]))
    else
      match head (List.filter (Store.has_id n) (Store.rows (db w))) with
      | Some u =>
          (Ok (user_response (Store.id u) (Store.name u)
                 (Store.created_at u) (Store.updated_at u)),
           logged w [EvSql (Store.SelectById (PInt n))])
      | None =>
          (Ok not_found,
           logged w [EvSql (Store.SelectById (PInt n)); EvLog "User is not found"])
      end.
Proof.
  intros Hkey Hint Hnz.
  unfold UserDetailHandler.get, bind.
  unfold presented_key in Hkey. rewrite (validate_key_accepts _ _ _ Hkey).
  unfold UserDetailHandler._validate_user_id, try_except, bind, lift.
  rewrite Hint. destruct (decide (n = 0)) as [? | _]; [contradiction |].
  unfold execute_select_by_id, execute, fetchone.
  destruct w as [d k tr [|]]; cbn [aborted db reads trace]; [reflexivity |].
  cbn. destruct (head _); cbn; [reflexivity |].
  unfold logged. cbn. rewrite <- app_assoc. reflexivity.
Qed.

Lemma get_by_id_zero env req path w :
  key_matches env (presented_key req) ->
  PyText.py_int (PStr path) = Ok 0 ->
  UserDetailHandler.get env req path w
  = (Ok (bad_request "User ID cannot be 0"), logged w [EvLog "User ID cannot be 0"]).
Proof.
  intros Hkey Hint. unfold UserDetailHandler.get, bind.
  unfold presented_key in Hkey. rewrite (validate_key_accepts _ _ _ Hkey).
  unfold UserDetailHandler._validate_user_id, try_except, bind, lift.
  rewrite Hint. reflexivity.
Qed.

(** C6, as the code has it. A GetById request with a valid credential whose
    path reads as the integer [n]. For [n = 0] the answer has status 400 and
    the body [{"result": false, "error": "User ID cannot be 0"}], and no
    statement is executed. For [n <> 0], on a connection whose transaction
    is not aborted: with no row of that id the answer has status 404 and the
    body [{"result": false, "error": "User is not found"}]; with a row of
    that id it has status 200 and the body [{"result": true, "user": ..}]
    of a row of the table that has that id. *)
Theorem get_by_id_cases env req path w n :
  valid_credential env req ->
  PyText.py_int (PStr path) = Ok n ->
  let r := UserDetailHandler.get env req path w in
  (n = 0 ->
   r = (Ok {| status := 400; content_type := "application/json";
              body := JDict [("result", JBool false);
                             ("error", JStr "User ID cannot be 0")] |},
        logged w [EvLog "User ID cannot be 0"]))
  /\ (n <> 0 -> aborted w = false ->
      (forall u, In u (Store.rows (db w)) -> Store.id u <> n) ->
      r = (Ok {| status := 404; content_type := "application/json";
                 body := JDict [("result", JBool false);
                                ("error", JStr "User is not found")] |},
           logged w [EvSql (Store.SelectById (PInt n)); EvLog "User is not found"]))
  /\ (n <> 0 -> aborted w = false ->
      forall u, In u (Store.rows (db w)) -> Store.id u = n ->
      exists u', In u' (Store.rows (db w)) /\ Store.id u' = n
        /\ r = (Ok {| status := 200; content_type := "application/json";
                      body := JDict [("result", JBool true);
                                     ("user",
                                      JDict [("id", JInt n);
                                             ("name", JStr (Store.name u'));
                                             ("created_at", JInt (Store.created_at u'));
                                             ("updated_at", JInt (Store.updated_at u'))])] |},
                logged w [EvSql (Store.SelectById (PInt n))])).
Proof.
  intros Hkey Hint r. subst r. apply key_matches_credential in Hkey. repeat split.
  - intros ->. exact (get_by_id_zero env req path w Hkey Hint).
  - intros Hnz Hconn Hnone. rewrite (get_by_id_validated _ _ _ _ _ Hkey Hint Hnz), Hconn.
    rewrite filter_none_without; [reflexivity |].
    intros u Hu. apply Z.eqb_neq. auto.
  - intros Hnz Hconn u Hu Hid.
    rewrite (get_by_id_validated _ _ _ _ _ Hkey Hint Hnz), Hconn.
    destruct (head_filter_some (Store.has_id n) _ u Hu) as (y & Hy & Hyin & Hyp).
    { apply Z.eqb_eq. exact Hid. }
    apply Z.eqb_eq in Hyp. exists y. rewrite Hy, Hyp. auto.
Qed.

(** ** Every path of every handler *)

(** Whatever a handler writes with a status other than 200 has the error
    shape. *)
Lemma error_responses_have_error_body env r w resp w' :
  serve env r w = (Ok resp, w') ->
  status resp <> 200 ->
  exists msg, body resp = error_body msg.
Proof.
  destruct r as [req | req | req path]; handler_paths;
    intros [= <- <-] Hst; simpl in *; solve [congruence | eauto].
Qed.

(** C7, as the code has it. A Create request with a valid credential and
    no [name] argument: [get_argument] raises [MissingArgumentError] before
    [_validate_name] is reached, the handler writes no answer of its own and
    has no effect; the exception is left to the framework. The answers the
    handlers do write with a status other than 200 all have the body
    [{"result": false, "error": <message>}]. *)
Theorem missing_name_escapes :
  (forall env req w,
      key_matches env (presented_key req) ->
      Tornado.arguments req !! "name" = None ->
      UsersHandler.post env req w = (Raise (MissingArgumentError "name"), w))
  /\ (forall env r w resp w',
         serve env r w = (Ok resp, w') ->
         status resp <> 200 ->
         exists msg, body resp = error_body msg).
Proof.
  split.
  - intros env req w Hkey Hnone.
    unfold UsersHandler.post, bind.
    unfold presented_key in Hkey. rewrite (validate_key_accepts _ _ _ Hkey).
    unfold lift, Tornado.get_argument, Tornado._get_arguments.
    rewrite Hnone. reflexivity.
  - exact error_responses_have_error_body.
Qed.

(** ** Rows stay *)

Lemma insert_user_returned d nm c u d' l :
  Store.insert_user d nm c u = (d', Ok l) ->
  exists s,
    nm = PStr s
    /\ l = [Z.pos (Store.next_id d)]
    /\ Z.pos (Store.next_id d) <= Store.serial_max
    /\ existsb (Store.has_id (Z.pos (Store.next_id d))) (Store.rows d) = false
    /\ Store.rows d'
       = Store.rows d ++ [{| Store.id := Z.pos (Store.next_id d); Store.name := s;
                             Store.created_at := c; Store.updated_at := u |}].
Proof.
  unfold Store.insert_user. cbv zeta.
  destruct nm as [| s | z]; [| | discriminate];
    (destruct (negb _); [discriminate |]);
    (destruct (Z.ltb_spec Store.serial_max (Z.pos (Store.next_id d))); [discriminate |]);
    [discriminate |].
  destruct (existsb _ _) eqn:E; [discriminate |].
  intros [= <- <-]. exists s. auto.
Qed.

(** An insert changes the rows by at most one row at the end, whose id no
    earlier row has. *)
Lemma insert_user_rows d nm c u :
  let d' := fst (Store.insert_user d nm c u) in
  Store.rows d' = Store.rows d
  \/ exists row, Store.rows d' = Store.rows d ++ [row]
       /\ existsb (Store.has_id (Store.id row)) (Store.rows d) = false.
Proof.
  unfold Store.insert_user. cbv zeta.
  destruct nm as [| s | z]; [| | left; reflexivity];
    (destruct (negb _); [left; reflexivity |]);
    (destruct (Store.serial_max <? _); [left; reflexivity |]);
    [left; reflexivity |].
  destruct (existsb _ _) eqn:E; [left; reflexivity |].
  right. eexists. split; [reflexivity | exact E].
Qed.

Lemma existsb_filter_nil {A} (p : A -> bool) (l : list A) :
  existsb p l = false -> List.filter p l = [].
Proof.
  induction l as [| a l IH]; simpl; [reflexivity |].
  destruct (p a); simpl; [discriminate | exact IH].
Qed.

Lemma sole_row_insert uid row d nm c u :
  sole_row uid row d -> sole_row uid row (fst (Store.insert_user d nm c u)).
Proof.
  unfold sole_row. intros Hsole.
  destruct (insert_user_rows d nm c u) as [-> | (new & -> & Hfree)]; [assumption |].
  rewrite List.filter_app, Hsole. simpl.
  destruct (Store.has_id uid new) eqn:E; [| reflexivity].
  apply Z.eqb_eq in E. rewrite E in Hfree.
  apply existsb_filter_nil in Hfree. congruence.
Qed.

(** A request leaves the table as it is or runs one insert on it. *)
Lemma serve_table env r w :
  db (snd (serve env r w)) = db w
  \/ exists nm c u, db (snd (serve env r w)) = fst (Store.insert_user (db w) nm c u).
Proof.
  destruct r as [req | req | req path]; handler_paths; simpl;
    solve [ left; reflexivity
          | right;
            match goal with
            | H : Store.insert_user _ ?nm ?c ?u = _ |- _ =>
                exists nm, c, u; rewrite H; reflexivity
            end ].
Qed.

Lemma serve_all_sole_row env uid row rs w :
  sole_row uid row (db w) -> sole_row uid row (db (serve_all env rs w)).
Proof.
  revert w. induction rs as [| r rs IH]; simpl; intros w Hsole; [assumption |].
  apply IH. destruct (serve_table env r w) as [-> | (nm & c & u & ->)];
    [assumption | apply sole_row_insert; assumption].
Qed.

(** ** Decimal text of an id *)

Lemma scan_digits_uint l p n :
  PyText.scan_digits (NilEmpty.string_of_uint l) false (Z.pos p) n
  = Some (Z.pos (Pos.of_uint_acc l p), (n + Decimal.nb_digits l)%nat, "").
Proof.
  revert p n. induction l; intros p n; simpl;
    [repeat f_equal; lia | ..];
    match goal with
    | |- PyText.scan_digits _ false ?a _ = Some (Z.pos (Pos.of_uint_acc _ ?b), _, _) =>
        replace a with (Z.pos b) by (unfold PyText.code; simpl; lia)
    end;
    replace (n + S (Decimal.nb_digits l))%nat with (S n + Decimal.nb_digits l)%nat
      by lia;
    apply IHl.
Qed.

Lemma of_uint_acc_lower l p :
  Z.pos p * 10 ^ Z.of_nat (Decimal.nb_digits l) <= Z.pos (Pos.of_uint_acc l p).
Proof.
  revert p. induction l; intros p; cbn [Pos.of_uint_acc Decimal.nb_digits];
    try (rewrite Nat2Z.inj_succ, Z.pow_succ_r by lia;
         etransitivity; [| apply IHl];
         assert (0 < 10 ^ Z.of_nat (Decimal.nb_digits l)) by (apply Z.pow_pos_nonneg; lia);
         nia).
  rewrite Z.pow_0_r. lia.
Qed.

Lemma to_uint_head_nonzero q l : Pos.to_uint q <> Decimal.D0 l.
Proof.
  intros E.
  pose proof (DecimalPos.Unsigned.to_of (Pos.to_uint q)) as Hn.
  rewrite DecimalPos.Unsigned.of_to in Hn. simpl in Hn.
  assert (Decimal.nzhead (Pos.to_uint q) <> Decimal.Nil) as Hnz.
  { intros Hnil. apply DecimalFacts.unorm_0 in Hnil.
    rewrite <- Hn in Hnil. exact (DecimalPos.Unsigned.to_uint_nonzero q Hnil). }
  rewrite (DecimalFacts.unorm_nzhead _ Hnz) in Hn.
  apply (DecimalFacts.nzhead_nonzero (Pos.to_uint q) l). congruence.
Qed.

(** [int()] on a text that starts with a digit: no space and no sign to
    skip. *)
Lemma int_of_str_digit_head c r :
  PyText.is_decimal c = true ->
  PyText.int_of_str (String c r)
  = match PyText.scan_digits r false (PyText.code c - 48) 1 with
    | None => Raise PyText.invalid_literal
    | Some (v, n, rest) =>
        match PyText.skip_int_space rest with
        | EmptyString =>
            if (PyText.max_str_digits <? n)%nat
            then Raise (ValueError "Exceeds the limit (4300 digits) for integer string conversion")
            else Ok v
        | _ => Raise PyText.invalid_literal
        end
    end.
Proof.
  intros H.
  destruct c as [[|] [|] [|] [|] [|] [|] [|] [|]];
    vm_compute in H; try discriminate H; reflexivity.
Qed.

(** [int()] reads back the decimal text of a positive integer within the
    digit limit. *)
Lemma int_of_decimal_text q :
  Z.pos q < 10 ^ Z.of_nat PyText.max_str_digits ->
  PyText.py_int (PStr (PyText.str_of_Z (Z.pos q))) = Ok (Z.pos q).
Proof.
  intros Hlim. unfold PyText.str_of_Z. cbn [Z.to_int Pos.to_int].
  pose proof (DecimalPos.Unsigned.of_to q) as Hof.
  pose proof (to_uint_head_nonzero q) as Hhead.
  pose proof (DecimalPos.Unsigned.to_uint_nonnil q) as Hnil.
  destruct (Pos.to_uint q) as [| l | l | l | l | l | l | l | l | l | l];
    [contradiction | destruct (Hhead l eq_refl) | ..];
    cbn [Pos.of_uint] in Hof; injection Hof as Hof;
    cbn [PyText.py_int NilZero.string_of_int NilZero.string_of_uint
         NilEmpty.string_of_uint];
    rewrite int_of_str_digit_head by reflexivity;
    match goal with
    | H : Pos.of_uint_acc l ?k = q |- context [PyText.scan_digits _ false ?a _] =>
        change a with (Z.pos k);
        pose proof (of_uint_acc_lower l k) as Hlow; rewrite H in Hlow
    end;
    rewrite scan_digits_uint, Hof; cbn [PyText.skip_int_space];
    (destruct (Nat.ltb_spec PyText.max_str_digits (1 + Decimal.nb_digits l)) as [Hbig | _];
     [| reflexivity]);
    exfalso;
    assert (10 ^ Z.of_nat PyText.max_str_digits <= 10 ^ Z.of_nat (Decimal.nb_digits l))
      by (apply Z.pow_le_mono_r; lia);
    assert (0 < 10 ^ Z.of_nat PyText.max_str_digits) by (apply Z.pow_pos_nonneg; lia);
    nia.
Qed.

(** What a 200 from Create tells: the answer's user is the one row of the
    table with its id, and the id is one a [SERIAL] sequence hands out. *)
Lemma create_answer_is_stored env req w uid n c u w1 :
  UsersHandler.post env req w = (Ok (user_response uid n c u), w1) ->
  0 < uid <= Store.serial_max
  /\ aborted w1 = false
  /\ sole_row uid {| Store.id := uid; Store.name := n;
                     Store.created_at := c; Store.updated_at := u |} (db w1).
Proof.
  unfold user_response, answer, user_json. handler_paths; intros Heq; try discriminate.
  injection Heq as Huid Hn Hc Hu Hw. subst uid n c u w1. simpl.
  match goal with
  | H : Store.insert_user _ _ _ _ = (_, Ok _) |- _ =>
      apply insert_user_returned in H as (s & Hs & Hl & Hmax & Hfree & Hrows)
  end.
  injection Hs as <-. subst.
  match goal with H : head _ = Some _ |- _ => simpl in H; injection H as <- end.
  split; [lia |]. split; [reflexivity |].
  unfold sole_row. rewrite Hrows, List.filter_app, (existsb_filter_nil _ _ Hfree).
  unfold Store.has_id, List.filter, Store.id. rewrite Z.eqb_refl. reflexivity.
Qed.

(** C3, as the code has it. Round trip. When Create answers 200 with a
    user, the decimal text of the returned id is a path [int()] reads as
    that id, and the connection is left with no aborted transaction; then,
    after any further requests that leave it so, a GetById with a valid
    credential and a path that reads as that id answers with status 200 and
    the same id, [name], [created_at] and [updated_at]. *)
Theorem created_user_is_retrievable env req w uid n c u w1 :
  UsersHandler.post env req w
  = (Ok {| status := 200; content_type := "application/json";
           body := JDict [("result", JBool true);
                          ("user", JDict [("id", JInt uid); ("name", JStr n);
                                          ("created_at", JInt c);
                                          ("updated_at", JInt u)])] |},
     w1) ->
  PyText.py_int (PStr (PyText.str_of_Z uid)) = Ok uid
  /\ aborted w1 = false
  /\ forall rs req' path,
       let w2 := serve_all env rs w1 in
       aborted w2 = false ->
       valid_credential env req' ->
       PyText.py_int (PStr path) = Ok uid ->
       UserDetailHandler.get env req' path w2
       = (Ok {| status := 200; content_type := "application/json";
                body := JDict [("result", JBool true);
                               ("user", JDict [("id", JInt uid); ("name", JStr n);
                                               ("created_at", JInt c);
                                               ("updated_at", JInt u)])] |},
          logged w2 [EvSql (Store.SelectById (PInt uid))]).
Proof.
  intros Hpost.
  apply (create_answer_is_stored env req w uid n c u w1) in Hpost
    as ([Hpos Hmax] & Hconn & Hsole).
  split; [| split; [exact Hconn |]].
  - destruct uid as [| q | q]; try lia. apply int_of_decimal_text.
    apply Z.le_lt_trans with (1 := Hmax). reflexivity.
  - intros rs req' path w2 Hconn2 Hkey Hpath. apply key_matches_credential in Hkey.
    apply (serve_all_sole_row env _ _ rs) in Hsole. fold w2 in Hsole.
    rewrite (get_by_id_validated _ _ _ _ _ Hkey Hpath), Hconn2 by lia.
    unfold sole_row in Hsole. rewrite Hsole. reflexivity.
Qed.

(** ** The table the service builds *)

Lemma insert_user_next d nm c u :
  let d' := fst (Store.insert_user d nm c u) in
  (Store.next_id d <= Store.next_id d')%positive.
Proof.
  unfold Store.insert_user. cbv zeta.
  destruct nm as [| s | z]; [| | simpl; lia];
    (destruct (negb _); [simpl; lia |]);
    (destruct (Store.serial_max <? _); [simpl; lia |]);
    [simpl; lia |].
  destruct (existsb _ _); simpl; lia.
Qed.

Lemma insert_user_new_row d nm c u row :
  Store.rows (fst (Store.insert_user d nm c u)) = Store.rows d ++ [row] ->
  Store.id row = Z.pos (Store.next_id d)
  /\ Store.next_id (fst (Store.insert_user d nm c u)) = Pos.succ (Store.next_id d).
Proof.
  unfold Store.insert_user.
  assert (forall l : list Store.User, l = l ++ [row] -> False) as Hno.
  { intros l Hl. apply (f_equal (@List.length _)) in Hl.
    rewrite List.length_app in Hl. simpl in Hl. lia. }
  cbv zeta.
  destruct nm as [| s | z]; [| | simpl; intros H; destruct (Hno _ H)];
    (destruct (negb _); [simpl; intros H; destruct (Hno _ H) |]);
    (destruct (Store.serial_max <? _); [simpl; intros H; destruct (Hno _ H) |]);
    [simpl; intros H; destruct (Hno _ H) |].
  destruct (existsb _ _); simpl; [intros H; destruct (Hno _ H) |].
  intros H. apply app_inv_head in H. injection H as <-. auto.
Qed.

Lemma insert_user_ids_below d nm c u :
  ids_below_next d -> ids_below_next (fst (Store.insert_user d nm c u)).
Proof.
  intros Hinv. pose proof (insert_user_next d nm c u) as Hnext. simpl in Hnext.
  destruct (insert_user_rows d nm c u) as [Hrows | (row & Hrows & _)];
    unfold ids_below_next; rewrite Hrows; intros x Hx.
  - specialize (Hinv x Hx). lia.
  - apply in_app_or in Hx as [Hx | [<- | []]].
    + specialize (Hinv x Hx). lia.
    + apply insert_user_new_row in Hrows as [-> ->]. lia.
Qed.

Lemma insert_user_ids_unique d nm c u :
  ids_unique d -> ids_unique (fst (Store.insert_user d nm c u)).
Proof.
  unfold ids_unique. intros Hinv.
  destruct (insert_user_rows d nm c u) as [-> | (row & -> & Hfree)]; [assumption |].
  rewrite List.map_app. simpl.
  apply NoDup_app. repeat split; [assumption | | apply NoDup_singleton].
  intros x Hx Hrow. apply list_elem_of_In in Hx, Hrow.
  destruct Hrow as [<- | []].
  apply in_map_iff in Hx as (v & Hid & Hv).
  assert (existsb (Store.has_id (Store.id row)) (Store.rows d) = true) as Hyes.
  { apply existsb_exists. exists v. split; [assumption |]. apply Z.eqb_eq. exact Hid. }
  congruence.
Qed.

(** From a fresh table on, whatever the requests: ids are unique and lie
    below the sequence. *)
Lemma served_table_invariants env rs w :
  ids_below_next (db w) /\ ids_unique (db w) ->
  ids_below_next (db (serve_all env rs w)) /\ ids_unique (db (serve_all env rs w)).
Proof.
  revert w. induction rs as [| r rs IH]; simpl; intros w [Hb Hu]; [auto |].
  apply IH. destruct (serve_table env r w) as [-> | (nm & c & u & ->)]; [auto |].
  split; [apply insert_user_ids_below | apply insert_user_ids_unique]; assumption.
Qed.

Lemma fresh_table_invariants :
  ids_below_next (db fresh_world) /\ ids_unique (db fresh_world).
Proof. split; [intros u [] | apply NoDup_nil_2]. Qed.

(** On a table the service built, an insert is refused only when the
    sequence is exhausted or the reading of the clock is no [BIGINT]. *)
Lemma served_table_accepts env rs t :
  let w := serve_all env rs fresh_world in
  Z.pos (Store.next_id (db w)) <= Store.serial_max ->
  Store.is_bigint t = true ->
  store_accepts (db w) t.
Proof.
  intros w Hmax Hbig. repeat split; try assumption.
  destruct (served_table_invariants env rs fresh_world fresh_table_invariants)
    as [Hb _].
  intros u Hu. specialize (Hb u Hu). fold w in Hb. lia.
Qed.

(** With unique ids, the row [SELECT .. WHERE id] finds is the row that
    has the id. *)
Lemma unique_id_lookup d u :
  ids_unique d -> In u (Store.rows d) ->
  head (List.filter (Store.has_id (Store.id u)) (Store.rows d)) = Some u.
Proof.
  unfold ids_unique. induction (Store.rows d) as [| a l IH]; simpl; [intros _ [] |].
  intros Hnd Hin. apply NoDup_cons in Hnd as [Ha Hnd].
  unfold Store.has_id at 1.
  destruct (Z.eqb_spec (Store.id a) (Store.id u)) as [Heq | Hne].
  - destruct Hin as [-> | Hin]; [reflexivity |].
    exfalso. apply Ha. apply list_elem_of_In. rewrite Heq. apply in_map. exact Hin.
  - destruct Hin as [-> | Hin]; [congruence | auto].
Qed.

(** * Instances

    Each property above that has premises, at a concrete request; and the
    inputs at which the code departs from the specification's wording. *)

Lemma invalid_key_is_unauthorized_witness :
  let req := sample_request (Some "guess") [("name", ["Jane Doe"])] in
  let bare := sample_request None [("name", ["Jane Doe"])] in
  let outcome :=
    (Ok {| status := 401; content_type := "application/json";
           body := JDict [("result", JBool false); ("error", JStr "Unauthorized")] |},
     {| db := Store.empty_db; reads := 0; trace := [EvLog "Invalid key"];
        aborted := false |}) in
  environ sample_env !! "COM_X_KEY" <> Some (credential_text req)
  /\ environ sample_env !! "COM_X_KEY" <> Some (credential_text bare)
  /\ UsersHandler.post sample_env req fresh_world = outcome
  /\ UsersHandler.get sample_env req fresh_world = outcome
  /\ UserDetailHandler.get sample_env req "1" fresh_world = outcome
  /\ UsersHandler.post sample_env bare fresh_world = outcome.
Proof.
  intros req bare outcome.
  assert (environ sample_env !! "COM_X_KEY" <> Some (credential_text req)) as Hno.
  { vm_compute. discriminate. }
  assert (environ sample_env !! "COM_X_KEY" <> Some (credential_text bare)) as Hbare.
  { vm_compute. discriminate. }
  split; [exact Hno |]. split; [exact Hbare |].
  destruct (invalid_key_is_unauthorized sample_env req "1" fresh_world Hno)
    as (Hpost & Hget & Hdetail).
  repeat (split; [assumption |]).
  exact (proj1 (invalid_key_is_unauthorized sample_env bare "1" fresh_world Hbare)).
Defined.

(** C1 fails as worded: a request without a Com-X-Key header presents no
    credential, yet where the secret is the text "None" it is served. *)
Lemma absent_key_is_served :
  Tornado.headers (sample_request None [("name", ["Jane Doe"])]) !! "Com-X-Key" = None
  /\ environ none_env !! "COM_X_KEY" = Some "None"
  /\ UsersHandler.post none_env (sample_request None [("name", ["Jane Doe"])]) fresh_world
     = (Ok {| status := 200; content_type := "application/json";
              body := JDict [("result", JBool true);
                             ("user", JDict [("id", JInt 1); ("name", JStr "Jane Doe");
                                             ("created_at", JInt 0);
                                             ("updated_at", JInt 0)])] |},
        {| db := {| Store.rows :=
                      [{| Store.id := 1; Store.name := "Jane Doe";
                          Store.created_at := 0; Store.updated_at := 0 |}];
                    Store.next_id := 2 |};
           reads := 1;
           trace := [EvTime 0; EvSql (Store.InsertUser (PStr "Jane Doe") 0 0); EvCommit];
           aborted := false |})
  /\ fst (UserDetailHandler.get none_env (sample_request None []) "0" fresh_world)
     = Ok {| status := 400; content_type := "application/json";
             body := JDict [("result", JBool false);
                            ("error", JStr "User ID cannot be 0")] |}.
Proof. repeat split. Qed.

Lemma absent_key_is_the_text_None_witness :
  let req := sample_request None [] in
  environ none_env !! "COM_X_KEY" = Some "None"
  /\ Tornado.headers req !! "Com-X-Key" = None
  /\ validate_communication_key none_env (presented_key req) fresh_world
     = (Ok None, fresh_world).
Proof.
  intros req.
  assert (environ none_env !! "COM_X_KEY" = Some "None") as Hs by reflexivity.
  assert (Tornado.headers req !! "Com-X-Key" = None) as Hh by reflexivity.
  repeat (split; [assumption |]).
  exact (proj2 absent_key_is_the_text_None none_env req fresh_world Hs Hh).
Defined.


Lemma accepted_name_characters_witness :
  UsersHandler._validate_name (PStr "a_b") fresh_world
  = (Ok (PStr "a_b", None), fresh_world)
  /\ In "_"%char (chars (PyText.remove_spaces "a_b"))
  /\ PyText.is_decimal "_" = false
  /\ (PyText.is_alpha "_" = true \/ "_"%char = "_"%char
      \/ PyText.is_other_numeric "_" = true).
Proof.
  assert (UsersHandler._validate_name (PStr "a_b") fresh_world
          = (Ok (PStr "a_b", None), fresh_world)) as Hacc by reflexivity.
  assert (In "_"%char (chars (PyText.remove_spaces "a_b"))) as Hin
    by (simpl; auto).
  split; [exact Hacc |]. split; [exact Hin |].
  exact (accepted_name_characters (PStr "a_b") "a_b" fresh_world fresh_world
           Hacc "_"%char Hin).
Defined.

(** C8 fails as worded: the name "a_b" is accepted, and its underscore is
    no letter. *)
Lemma underscore_name_is_accepted :
  UsersHandler._validate_name (PStr "a_b") fresh_world
  = (Ok (PStr "a_b", None), fresh_world)
  /\ In "_"%char (chars (PyText.remove_spaces "a_b"))
  /\ PyText.is_alpha "_" = false.
Proof. repeat split. simpl. auto. Qed.



Lemma spaces_only_name_witness :
  let req := sample_request valid_key [("name", ["  "])] in
  "  " <> ""
  /\ (forall c, In c (chars "  ") -> c = " "%char)
  /\ key_matches sample_env (presented_key req)
  /\ sent req "name" = Some "  "
  /\ UsersHandler._validate_name (PStr "  ") fresh_world
     = (Ok (PStr "  ", None), fresh_world)
  /\ UsersHandler.post sample_env req fresh_world
     = (Ok (bad_request "Name cannot be empty"),
        logged fresh_world [EvLog "Name cannot be empty"]).
Proof.
  intros req.
  assert ("  " <> "") as Hne by discriminate.
  assert (forall c, In c (chars "  ") -> c = " "%char) as Hall.
  { intros c Hc. simpl in Hc. destruct Hc as [<- | [<- | []]]; reflexivity. }
  assert (key_matches sample_env (presented_key req)) as Hkey
    by (exists "s3cret"; split; reflexivity).
  assert (sent req "name" = Some "  ") as Hlast
    by reflexivity.
  repeat (split; [assumption |]). split.
  - exact (proj1 (spaces_only_name "  " Hne Hall) fresh_world).
  - exact (proj2 (spaces_only_name "  " Hne Hall) sample_env req fresh_world
             Hkey Hlast).
Defined.

(** C9 fails as worded: Create with a valid key and the name " " stores
    nothing and answers 400. *)
Lemma create_refuses_a_space :
  UsersHandler.post sample_env (sample_request valid_key [("name", [" "])]) fresh_world
  = (Ok (bad_request "Name cannot be empty"),
     {| db := Store.empty_db; reads := 0; trace := [EvLog "Name cannot be empty"];
        aborted := false |}).
Proof. reflexivity. Qed.

Lemma list_pagination_witness :
  let req := sample_request valid_key [("page_num", ["0"]); ("page_size", ["-3"])] in
  let req1 := sample_request valid_key [("page_num", ["abc"]); ("page_size", ["x"])] in
  let req2 := sample_request valid_key [("page_size", ["x"])] in
  let q := Store.SelectPage (-3) 3 in
  valid_credential sample_env req
  /\ decodable req "page_num" /\ decodable req "page_size"
  /\ decodable req2 "page_num"
  /\ (db (snd (UsersHandler.get sample_env req world_with_jane)) = db world_with_jane
      /\ reads (snd (UsersHandler.get sample_env req world_with_jane)) = 1%nat
      /\ trace (snd (UsersHandler.get sample_env req world_with_jane))
         = trace world_with_jane ++ [EvSql q]
      /\ (aborted world_with_jane = false ->
          UsersHandler.get sample_env req world_with_jane
          = (Raise (DatabaseError "LIMIT must not be negative"),
             failed (logged world_with_jane [EvSql q]))))
  /\ UsersHandler.get sample_env req1 world_with_jane
     = (Ok {| status := 400; content_type := "application/json";
              body := JDict [("result", JBool false);
                             ("error", JStr "Invalid page_num")] |},
        logged world_with_jane [EvLog "Error while parsing page_num"])
  /\ UsersHandler.get sample_env req2 world_with_jane
     = (Ok {| status := 400; content_type := "application/json";
              body := JDict [("result", JBool false);
                             ("error", JStr "Invalid page_size")] |},
        logged world_with_jane [EvLog "Error while parsing page_size"])
  /\ trace (snd (UsersHandler.get sample_env (sample_request valid_key []) world_with_jane))
     = trace world_with_jane ++ [EvSql (Store.SelectPage 10 0)].
Proof.
  intros req req1 req2 q.
  assert (valid_credential sample_env req) as Hkey by reflexivity.
  assert (decodable req "page_num") as Hd1 by (eexists; reflexivity).
  assert (decodable req "page_size") as Hd2 by (eexists; reflexivity).
  assert (decodable req2 "page_num") as Hd3 by (eexists; reflexivity).
  repeat (split; [assumption |]).
  split; [| split; [| split]].
  - exact (list_pagination sample_env req world_with_jane Hkey Hd1 Hd2).
  - exact (list_pagination sample_env req1 world_with_jane eq_refl
             ltac:(eexists; reflexivity) ltac:(eexists; reflexivity)).
  - exact (list_pagination sample_env req2 world_with_jane eq_refl
             Hd3 ltac:(eexists; reflexivity)).
  - exact (proj1 (proj2 (proj2
             (list_pagination sample_env (sample_request valid_key []) world_with_jane
                eq_refl ltac:(eexists; reflexivity) ltac:(eexists; reflexivity))))).
Defined.

(** C5 fails as worded: a [page_num] that is not UTF-8 is not answered 400
    "Invalid page_num", nor is the store queried; [get_argument] raises
    before [int()] is reached, and the error leaves the handler. *)
Lemma undecodable_page_num_is_raised :
  UsersHandler.get sample_env
    (raw_request valid_key [("page_num", [Tornado.NotUtf8 (String "255"%char "")])])
    world_with_jane
  = (Raise (HTTPError 400 "Invalid unicode in page_num"), world_with_jane).
Proof. reflexivity. Qed.

Lemma get_by_id_cases_witness :
  let req := sample_request valid_key [] in
  let t := 1700000000000000 in
  valid_credential sample_env req
  /\ PyText.py_int (PStr "1") = Ok 1
  /\ PyText.py_int (PStr "2") = Ok 2
  /\ PyText.py_int (PStr "0") = Ok 0
  /\ aborted world_with_jane = false
  /\ UserDetailHandler.get sample_env req "1" world_with_jane
     = (Ok {| status := 200; content_type := "application/json";
              body := JDict [("result", JBool true);
                             ("user", JDict [("id", JInt 1); ("name", JStr "Jane Doe");
                                             ("created_at", JInt t);
                                             ("updated_at", JInt t)])] |},
        logged world_with_jane [EvSql (Store.SelectById (PInt 1))])
  /\ UserDetailHandler.get sample_env req "2" world_with_jane
     = (Ok {| status := 404; content_type := "application/json";
              body := JDict [("result", JBool false);
                             ("error", JStr "User is not found")] |},
        logged world_with_jane
          [EvSql (Store.SelectById (PInt 2)); EvLog "User is not found"])
  /\ UserDetailHandler.get sample_env req "0" world_with_jane
     = (Ok {| status := 400; content_type := "application/json";
              body := JDict [("result", JBool false);
                             ("error", JStr "User ID cannot be 0")] |},
        logged world_with_jane [EvLog "User ID cannot be 0"]).
Proof.
  intros req t.
  assert (valid_credential sample_env req) as Hkey by reflexivity.
  assert (PyText.py_int (PStr "1") = Ok 1) as Hint by reflexivity.
  assert (PyText.py_int (PStr "2") = Ok 2) as Hint2 by reflexivity.
  assert (PyText.py_int (PStr "0") = Ok 0) as Hint0 by reflexivity.
  assert (aborted world_with_jane = false) as Hconn by reflexivity.
  repeat (split; [assumption |]).
  split; [| split].
  - destruct (get_by_id_cases sample_env req "1" world_with_jane 1 Hkey Hint)
      as (_ & _ & Hfound).
    destruct (Hfound ltac:(lia) Hconn
                {| Store.id := 1; Store.name := "Jane Doe";
                   Store.created_at := t; Store.updated_at := t |}
                ltac:(left; reflexivity) eq_refl)
      as (u' & Hin & Hid & Hget).
    destruct Hin as [<- | []]. exact Hget.
  - apply (proj1 (proj2 (get_by_id_cases sample_env req "2" world_with_jane 2 Hkey Hint2)));
      [lia | exact Hconn |].
    intros u [<- | []]. simpl. lia.
  - exact (proj1 (get_by_id_cases sample_env req "0" world_with_jane 0 Hkey Hint0) eq_refl).
Defined.

(** C6 fails as worded: once a statement has failed (here a List with a
    negative [LIMIT]) the connection is in an aborted transaction, and a
    GetById with a valid credential is answered neither 200 for the id of a
    row nor 404 for an id without one; the store's error leaves the
    handler. *)
Lemma get_by_id_on_an_aborted_connection :
  In {| Store.id := 1; Store.name := "Jane Doe";
        Store.created_at := 1700000000000000; Store.updated_at := 1700000000000000 |}
     (Store.rows
        (db (serve_all sample_env
               [ListUsers (sample_request valid_key [("page_size", ["-1"])])]
               world_with_jane)))
  /\ fst (UserDetailHandler.get sample_env (sample_request valid_key []) "1"
            (serve_all sample_env
               [ListUsers (sample_request valid_key [("page_size", ["-1"])])]
               world_with_jane))
     = Raise (DatabaseError
                "current transaction is aborted, commands ignored until end of transaction block")
  /\ fst (UserDetailHandler.get sample_env (sample_request valid_key []) "2"
            (serve_all sample_env
               [ListUsers (sample_request valid_key [("page_size", ["-1"])])]
               world_with_jane))
     = Raise (DatabaseError
                "current transaction is aborted, commands ignored until end of transaction block").
Proof. repeat split. left. reflexivity. Qed.

Lemma missing_name_escapes_witness :
  let req := sample_request valid_key [] in
  let bad := sample_request valid_key [("name", ["Jane1"])] in
  key_matches sample_env (presented_key req)
  /\ Tornado.arguments req !! "name" = None
  /\ UsersHandler.post sample_env req fresh_world
     = (Raise (MissingArgumentError "name"), fresh_world)
  /\ status (bad_request "Name cannot be filled with number or symbol") <> 200
  /\ exists msg,
       body (bad_request "Name cannot be filled with number or symbol")
       = error_body msg.
Proof.
  intros req bad.
  assert (key_matches sample_env (presented_key req)) as Hkey
    by (exists "s3cret"; split; reflexivity).
  assert (Tornado.arguments req !! "name" = None) as Hnone by reflexivity.
  assert (status (bad_request "Name cannot be filled with number or symbol") <> 200)
    as Hst by (simpl; lia).
  split; [exact Hkey |]. split; [exact Hnone |]. split; [| split; [exact Hst |]].
  - exact (proj1 missing_name_escapes sample_env req fresh_world Hkey Hnone).
  - exact (proj2 missing_name_escapes sample_env (Create bad) fresh_world
             (bad_request "Name cannot be filled with number or symbol")
             (logged fresh_world [EvLog "Name cannot be filled with number or symbol"])
             eq_refl Hst).
Defined.

(** C7 fails as worded: Create with a valid key and no [name] writes no
    JSON error; the exception leaves the handler. *)
Lemma missing_name_is_raised :
  UsersHandler.post sample_env (sample_request valid_key []) fresh_world
  = (Raise (MissingArgumentError "name"), fresh_world).
Proof. reflexivity. Qed.

Lemma created_user_is_retrievable_witness :
  let t := 1700000000000000 in
  let req' := sample_request valid_key [] in
  let rs := [ListUsers req';
             Create (sample_request valid_key [("name", ["John"])]);
             GetById (sample_request None []) "1";
             ListUsers (sample_request valid_key [("page_num", ["abc"])])] in
  let jane :=
    {| status := 200; content_type := "application/json";
       body := JDict [("result", JBool true);
                      ("user", JDict [("id", JInt 1); ("name", JStr "Jane Doe");
                                      ("created_at", JInt t); ("updated_at", JInt t)])] |} in
  UsersHandler.post sample_env jane_request fresh_world = (Ok jane, world_with_jane)
  /\ aborted (serve_all sample_env rs world_with_jane) = false
  /\ valid_credential sample_env req'
  /\ PyText.py_int (PStr (PyText.str_of_Z 1)) = Ok 1
  /\ aborted world_with_jane = false
  /\ UserDetailHandler.get sample_env req' "1" world_with_jane
     = (Ok jane, logged world_with_jane [EvSql (Store.SelectById (PInt 1))])
  /\ UserDetailHandler.get sample_env req' "1" (serve_all sample_env rs world_with_jane)
     = (Ok jane,
        logged (serve_all sample_env rs world_with_jane)
          [EvSql (Store.SelectById (PInt 1))]).
Proof.
  intros t req' rs jane.
  assert (UsersHandler.post sample_env jane_request fresh_world
          = (Ok jane, world_with_jane)) as Hpost
    by reflexivity.
  assert (aborted (serve_all sample_env rs world_with_jane) = false) as Hconn
    by reflexivity.
  assert (valid_credential sample_env req') as Hkey by reflexivity.
  repeat (split; [assumption |]).
  destruct (created_user_is_retrievable sample_env jane_request fresh_world
              1 "Jane Doe" t t world_with_jane Hpost)
    as (Htext & Hconn1 & Hget).
  split; [exact Htext |]. split; [exact Hconn1 |]. split.
  - exact (Hget [] req' "1" Hconn1 Hkey eq_refl).
  - exact (Hget rs req' "1" Hconn Hkey eq_refl).
Defined.

(** C3 fails as worded: a user was created and its id returned, a List
    with [page_num=0] then had its statement refused, and the GetById that
    follows with the returned id does not succeed: the connection is in an
    aborted transaction and the store's error leaves the handler. *)
Lemma created_user_is_out_of_reach :
  UsersHandler.post sample_env jane_request fresh_world
  = (Ok {| status := 200; content_type := "application/json";
           body := JDict [("result", JBool true);
                          ("user", JDict [("id", JInt 1); ("name", JStr "Jane Doe");
                                          ("created_at", JInt 1700000000000000);
                                          ("updated_at", JInt 1700000000000000)])] |},
     world_with_jane)
  /\ fst (UsersHandler.get sample_env (sample_request valid_key [("page_num", ["0"])])
            world_with_jane)
     = Raise (DatabaseError "OFFSET must not be negative")
  /\ fst (UserDetailHandler.get sample_env (sample_request valid_key []) "1"
            (serve_all sample_env
               [ListUsers (sample_request valid_key [("page_num", ["0"])])]
               world_with_jane))
     = Raise (DatabaseError
                "current transaction is aborted, commands ignored until end of transaction block").
Proof. repeat split. Qed.

(** ** The specification's concrete scenarios *)

Example scenario_jane1_is_refused :
  UsersHandler.post sample_env (sample_request valid_key [("name", ["Jane1"])]) fresh_world
  = (Ok (bad_request "Name cannot be filled with number or symbol"),
     logged fresh_world [EvLog "Name cannot be filled with number or symbol"]).
Proof. reflexivity. Qed.

Example scenario_user_zero :
  UserDetailHandler.get sample_env (sample_request valid_key []) "0" world_with_jane
  = (Ok (bad_request "User ID cannot be 0"),
     logged world_with_jane [EvLog "User ID cannot be 0"]).
Proof. reflexivity. Qed.

Example scenario_page_num_abc :
  UsersHandler.get sample_env (sample_request valid_key [("page_num", ["abc"])])
    world_with_jane
  = (Ok (bad_request "Invalid page_num"),
     logged world_with_jane [EvLog "Error while parsing page_num"]).
Proof. reflexivity. Qed.

Example scenario_first_page :
  UsersHandler.get sample_env (sample_request valid_key []) world_with_jane
  = (Ok (users_response (Store.rows (db world_with_jane))),
     logged world_with_jane [EvSql (Store.SelectPage 10 0)]).
Proof. reflexivity. Qed.

Example scenario_trimmed_name :
  UsersHandler.post sample_env (sample_request valid_key [("name", [" Jane Doe "])])
    fresh_world
  = (Ok (user_response 1 "Jane Doe" 1700000000000000 1700000000000000),
     world_with_jane).
Proof. reflexivity. Qed.

Example int_examples :
  PyText.py_int (PStr "12") = Ok 12
  /\ PyText.py_int (PStr " -1_0 ") = Ok (-10)
  /\ PyText.py_int (PStr "000") = Ok 0
  /\ PyText.py_int (PInt 10) = Ok 10
  /\ PyText.py_int (PStr "abc") = Raise PyText.invalid_literal
  /\ PyText.py_int (PStr "") = Raise PyText.invalid_literal
  /\ PyText.py_int (PStr "1__0") = Raise PyText.invalid_literal
  /\ PyText.py_int (PStr "- 1") = Raise PyText.invalid_literal.
Proof. repeat split. Qed.

(** * The rest of the pipeline

    The validator's full behaviour, the routes, the reading endpoints, what
    Create does to the table, and the table the service builds. *)

(** ** The key validator, in full *)

(** X1. [validate_communication_key] never raises and never touches the
    table or the clock. It returns [None] exactly when the key's text is the
    configured secret, leaving no trace; otherwise it returns the one text
    "Unauthorized", whatever went wrong, after a single log entry. *)
Theorem validator_accepts_exactly_the_secret env key w :
  exists o w',
    validate_communication_key env key w = (Ok o, w')
    /\ db w' = db w /\ reads w' = reads w
    /\ (o = None <-> key_matches env key)
    /\ (o = None -> w' = w)
    /\ (o <> None ->
        o = Some "Unauthorized" /\ exists msg, trace w' = trace w ++ [EvLog msg]).
Proof.
  unfold validate_communication_key, try_except, bind, lift, log_exception, emit, ret.
  destruct (PyText.py_str key) as [k | e] eqn:Hk.
  - destruct (decide (Some k <> environ env !! "COM_X_KEY")) as [Hne | Heq].
    + eexists _, _. split; [reflexivity |]. simpl. repeat split; try congruence; eauto.
      intros (k' & Hk' & Hs). exfalso. apply Hne. congruence.
    + eexists _, _. split; [reflexivity |]. repeat split; try congruence.
      intros _. exists k. split; [exact Hk |].
      destruct (decide (Some k = environ env !! "COM_X_KEY")); [congruence | contradiction].
  - eexists _, _. split; [reflexivity |]. simpl. repeat split; try congruence; eauto.
    intros (k' & Hk' & _). congruence.
Qed.

(** X2. Without [COM_X_KEY] in the environment nobody gets in: every
    request to every endpoint, with or without a key, is answered 401. *)
Theorem unset_secret_locks_everyone_out env r w :
  environ env !! "COM_X_KEY" = None ->
  serve env r w = (Ok unauthorized, logged w [EvLog "Invalid key"]).
Proof.
  intros Hunset.
  assert (forall req, ~ key_matches env (presented_key req)) as Hno.
  { intros req (k & _ & Hs). congruence. }
  destruct r as [req | req | req path]; simpl;
    pose proof (presented_key_rejected env req w (Hno req)) as Hv;
    unfold presented_key in Hv;
    unfold UsersHandler.post, UsersHandler.get, UserDetailHandler.get, bind;
    rewrite Hv; reflexivity.
Qed.

(** ** User ids *)

(** X3. A GetById request with a valid credential whose path [int()]
    refuses is answered 400 "Invalid user_id"; no statement is executed. *)
Theorem unreadable_user_id env req path w e :
  key_matches env (presented_key req) ->
  PyText.py_int (PStr path) = Raise e ->
  UserDetailHandler.get env req path w
  = (Ok (bad_request "Invalid user_id"),
     logged w [EvLog "Error while parsing user_id"; EvLog "Invalid user_id"]).
Proof.
  intros Hkey Hint. unfold UserDetailHandler.get, bind.
  unfold presented_key in Hkey. rewrite (validate_key_accepts _ _ _ Hkey).
  unfold UserDetailHandler._validate_user_id, try_except, bind, lift.
  rewrite Hint. unfold logged. simpl. rewrite <- app_assoc. reflexivity.
Qed.

Lemma span_digits_spec s d rest :
  span_digits s = (d, rest) ->
  s = String.append d rest /\ PyText.string_forall PyText.is_decimal d = true.
Proof.
  revert d rest. induction s as [| c s IH]; simpl; intros d rest.
  - intros [= <- <-]. auto.
  - destruct (PyText.is_decimal c) eqn:Ec.
    + destruct (span_digits s) as [d' rest'] eqn:E. intros [= <- <-].
      destruct (IH _ _ eq_refl) as [-> Hd]. simpl. rewrite Ec, Hd. auto.
    + intros [= <- <-]. auto.
Qed.

Lemma scan_digits_all_digits d acc n :
  PyText.string_forall PyText.is_decimal d = true ->
  0 <= acc ->
  exists v, PyText.scan_digits d false acc n = Some (v, (n + String.length d)%nat, "")
            /\ 0 <= v.
Proof.
  revert acc n. induction d as [| c d IH]; simpl; intros acc n Hall Hacc.
  - exists acc. rewrite Nat.add_0_r. auto.
  - apply andb_true_iff in Hall as [Hc Hd]. rewrite Hc.
    assert (0 <= PyText.code c - 48) as Hdig.
    { unfold PyText.is_decimal, PyText.between in Hc. lia. }
    destruct (IH (10 * acc + (PyText.code c - 48)) (S n) Hd ltac:(lia)) as (v & Hv & Hpos).
    exists v. rewrite Hv. split; [| assumption].
    replace (n + S (String.length d))%nat with (S n + String.length d)%nat by lia.
    reflexivity.
Qed.

(** [int()] on a non-empty text of digits: a natural number, unless the
    digits are more than the limit. *)
Lemma int_of_digits d :
  d <> "" -> PyText.string_forall PyText.is_decimal d = true ->
  ((String.length d <= PyText.max_str_digits)%nat ->
   exists n, 0 <= n /\ PyText.py_int (PStr d) = Ok n)
  /\ ((PyText.max_str_digits < String.length d)%nat ->
      exists e, PyText.py_int (PStr d) = Raise e).
Proof.
  intros Hne Hall. destruct d as [| c d]; [contradiction |].
  simpl in Hall. apply andb_true_iff in Hall as [Hc Hd].
  cbn [PyText.py_int]. rewrite (int_of_str_digit_head c d Hc).
  assert (0 <= PyText.code c - 48) as Hdig.
  { unfold PyText.is_decimal, PyText.between in Hc. lia. }
  destruct (scan_digits_all_digits d (PyText.code c - 48) 1 Hd Hdig) as (v & -> & Hv).
  cbn [PyText.skip_int_space String.length]. split; intros Hlen.
  - exists v. split; [assumption |].
    destruct (Nat.ltb_spec PyText.max_str_digits (1 + String.length d)); [lia | reflexivity].
  - destruct (Nat.ltb_spec PyText.max_str_digits (1 + String.length d)); [eauto | lia].
Qed.

(** X4. The id the route [/users/([0-9]+)] hands to GetById is a non-empty
    text of the digits 0 to 9 taken from the path after [/users/]. [int()]
    reads it as a natural number, so [_validate_user_id] never sees a
    negative id from a routed request; it refuses the text only when it has
    more digits than [int()] converts. *)
Theorem routed_user_id path user_id :
  match_user_detail path = Some user_id ->
  user_id <> ""
  /\ PyText.string_forall PyText.is_decimal user_id = true
  /\ (exists rest, path = String.append "/users/" (String.append user_id rest)
                   /\ at_end rest = true)
  /\ ((String.length user_id <= PyText.max_str_digits)%nat ->
      exists n, 0 <= n /\ PyText.py_int (PStr user_id) = Ok n)
  /\ ((PyText.max_str_digits < String.length user_id)%nat ->
      exists e, PyText.py_int (PStr user_id) = Raise e).
Proof.
  unfold match_user_detail.
  destruct (strip_prefix "/users/" path) as [rest |] eqn:Hpre; [| discriminate].
  destruct (span_digits rest) as [d rest'] eqn:Hspan.
  destruct d as [| c d]; [discriminate |].
  destruct (at_end rest') eqn:Hend; [| discriminate].
  intros [= <-].
  destruct (span_digits_spec _ _ _ Hspan) as [Hrest Hall].
  assert (String c d <> "") as Hne by discriminate.
  destruct (int_of_digits _ Hne Hall) as [Hok Hbad].
  repeat split; try assumption.
  exists rest'. split; [| assumption].
  rewrite <- Hrest. clear - Hpre.
  assert (forall p s r, strip_prefix p s = Some r -> s = String.append p r) as Hsp.
  { induction p as [| a p IH]; simpl; intros s r.
    - intros [= ->]. reflexivity.
    - destruct s as [| b s]; [discriminate |].
      destruct (Ascii.eqb_spec a b) as [-> | _]; [| discriminate].
      intros H. rewrite (IH _ _ H). reflexivity. }
  exact (Hsp _ _ _ Hpre).
Qed.

(** ** What the endpoints do to the world *)

Lemma logged_nil w : logged w [] = w.
Proof. destruct w. unfold logged. simpl. rewrite app_nil_r. reflexivity. Qed.

Lemma logged_logged w evs evs' : logged (logged w evs) evs' = logged w (evs ++ evs').
Proof. unfold logged. simpl. rewrite app_assoc. reflexivity. Qed.

(** Whether the presented key is the secret can be told. *)
Lemma validator_key_cases env req :
  key_matches env (presented_key req) \/ ~ key_matches env (presented_key req).
Proof.
  destruct (presented_key_text req) as [E | [s E]]; rewrite E.
  - destruct (decide (environ env !! "COM_X_KEY" = Some "None")) as [Hs | Hs].
    + left. exists "None". auto.
    + right. intros (k & [= <-] & Hk). contradiction.
  - destruct (decide (environ env !! "COM_X_KEY" = Some s)) as [Hs | Hs].
    + left. exists s. auto.
    + right. intros (k & [= <-] & Hk). contradiction.
Qed.

(** The validator on the key a request presents: one of two outcomes. *)
Lemma presented_key_decided env req w :
  (key_matches env (presented_key req)
   /\ validate_communication_key env (Tornado.headers_get req "Com-X-Key") w = (Ok None, w))
  \/ (~ key_matches env (presented_key req)
      /\ validate_communication_key env (Tornado.headers_get req "Com-X-Key") w
         = (Ok (Some "Unauthorized"), logged w [EvLog "Invalid key"])).
Proof.
  destruct (validator_key_cases env req) as [Hyes | Hno].
  - left. split; [assumption |]. apply validate_key_accepts. exact Hyes.
  - right. split; [assumption |]. apply (presented_key_rejected env req w Hno).
Qed.

Lemma insert_user_refused d nm c u d' e :
  Store.insert_user d nm c u = (d', Raise e) ->
  (exists msg, e = DatabaseError msg) /\ Store.rows d' = Store.rows d.
Proof.
  unfold Store.insert_user. cbv zeta.
  destruct nm as [| s | z]; [| | intros [= <- <-]; eauto];
    (destruct (negb _); [intros [= <- <-]; eauto |]);
    (destruct (Store.serial_max <? _); [intros [= <- <-]; eauto |]);
    [intros [= <- <-]; eauto |].
  destruct (existsb _ _); [intros [= <- <-]; eauto | discriminate].
Qed.

Lemma searched_name_is_valid n :
  n <> "" ->
  PyText.search_digit_or_nonword (PyText.remove_spaces n) = false ->
  valid_name n.
Proof.
  intros Hne Hsearch. split; [assumption |]. intros c Hc.
  destruct (Z.eq_dec (PyText.code c) 32) as [? | Hsp]; [left; assumption | right].
  assert (In c (chars (PyText.remove_spaces n))) as Hin
    by (apply In_remove_spaces; auto).
  pose proof (proj1 (string_exists_false _ _) Hsearch c Hin) as Hp. simpl in Hp.
  apply orb_false_iff in Hp as [Hd Hw]. apply negb_false_iff in Hw. auto.
Qed.

Lemma insert_user_stored d nm c u d' l :
  Store.insert_user d nm c u = (d', Ok l) ->
  exists s,
    nm = PStr s
    /\ l = [Z.pos (Store.next_id d)]
    /\ (forall x, In x (Store.rows d) -> Store.id x <> Z.pos (Store.next_id d))
    /\ Z.pos (Store.next_id d) <= Store.serial_max
    /\ Store.is_bigint c = true /\ Store.is_bigint u = true
    /\ d' = {| Store.rows := Store.rows d ++
                 [{| Store.id := Z.pos (Store.next_id d); Store.name := s;
                     Store.created_at := c; Store.updated_at := u |}];
               Store.next_id := Pos.succ (Store.next_id d) |}.
Proof.
  unfold Store.insert_user. cbv zeta.
  destruct nm as [| s | z]; [| | discriminate];
    (destruct (Store.is_bigint c) eqn:Ec; [| discriminate]);
    (destruct (Store.is_bigint u) eqn:Eu; [| discriminate]); cbn [andb negb];
    (destruct (Z.ltb_spec Store.serial_max (Z.pos (Store.next_id d))); [discriminate |]);
    [discriminate |].
  destruct (existsb _ _) eqn:E; [discriminate |].
  intros [= <- <-]. exists s. repeat split; try assumption.
  intros x Hx Hid.
  assert (existsb (Store.has_id (Z.pos (Store.next_id d))) (Store.rows d) = true) as Hyes.
  { apply existsb_exists. exists x. split; [assumption |]. apply Z.eqb_eq. exact Hid. }
  congruence.
Qed.

(** [get_argument] by the values sent. *)
Lemma get_argument_cases req name dflt :
  (~ decodable req name
   /\ Tornado.get_argument req name dflt
      = Raise (HTTPError 400 (String.append "Invalid unicode in " name)))
  \/ (decodable req name
      /\ Tornado.get_argument req name dflt
         = match submitted req name with
           | Some v => Ok (PStr v)
           | None =>
               match dflt with
               | Some d => Ok d
               | None => Raise (MissingArgumentError name)
               end
           end).
Proof.
  destruct (texts (default [] (Tornado.arguments req !! name))) as [l |] eqn:Ht.
  - right. assert (decodable req name) as Hd by (exists l; exact Ht).
    split; [exact Hd | apply decodable_get_argument; exact Hd].
  - left. split; [intros [l Hl]; congruence |].
    unfold Tornado.get_argument, Tornado._get_arguments.
    rewrite decode_values_texts, Ht. reflexivity.
Qed.

(** Every outcome of [post]. *)
Lemma post_cases env req w :
  let out := UsersHandler.post env req w in
  let t := clock env (reads w) in
  let uid := Z.pos (Store.next_id (db w)) in
  out = (Ok unauthorized, logged w [EvLog "Invalid key"])
  \/ (~ decodable req "name"
      /\ out = (Raise (HTTPError 400 "Invalid unicode in name"), w))
  \/ (decodable req "name" /\ submitted req "name" = None
      /\ out = (Raise (MissingArgumentError "name"), w))
  \/ (exists msg,
        (msg = "Name cannot be empty"
         \/ msg = "Name cannot be filled with number or symbol")
        /\ out = (Ok (bad_request msg), logged w [EvLog msg]))
  \/ (exists n msg d,
        Store.rows d = Store.rows (db w)
        /\ (Store.next_id (db w) <= Store.next_id d)%positive
        /\ out = (Raise (DatabaseError msg),
                  {| db := d; reads := S (reads w);
                     trace := trace w ++ [EvTime t; EvSql (Store.InsertUser (PStr n) t t)];
                     aborted := true |}))
  \/ (exists n,
        submitted req "name" = Some n /\ valid_name n
        /\ aborted w = false
        /\ store_accepts (db w) t
        /\ out = (Ok (user_response uid n t t),
                  {| db := {| Store.rows := Store.rows (db w) ++ [new_row uid n t];
                              Store.next_id := Pos.succ (Store.next_id (db w)) |};
                     reads := S (reads w);
                     trace := trace w ++ [EvTime t; EvSql (Store.InsertUser (PStr n) t t);
                                          EvCommit];
                     aborted := false |})).
Proof.
  intros out t uid. subst out. unfold UsersHandler.post, bind.
  destruct (presented_key_decided env req w) as [[_ ->] | [_ ->]]; [| left; reflexivity].
  right. unfold lift.
  destruct (get_argument_cases req "name" None) as [[Hd ->] | [Hd ->]]; [left; auto |].
  right.
  destruct (submitted req "name") as [n |] eqn:Hsub; [| left; auto].
  right. rewrite (validate_name_text (PStr n) n w eq_refl).
  destruct (decide (n = "")) as [-> | Hne].
  { left. exists "Name cannot be empty". auto. }
  destruct (PyText.search_digit_or_nonword _) eqn:Hsearch.
  { left. exists "Name cannot be filled with number or symbol". auto. }
  right. unfold time_now_us, execute_insert, execute, commit.
  cbn [aborted db reads trace]. fold t.
  destruct (aborted w) eqn:Hconn.
  { left. exists n, "current transaction is aborted, commands ignored until end of transaction block", (db w).
    split; [reflexivity |]. split; [lia |]. cbn. rewrite <- !app_assoc. reflexivity. }
  destruct (Store.insert_user (db w) (PStr n) t t) as [d [l | e]] eqn:Hins.
  - right. apply insert_user_stored in Hins as (s & Hs & -> & Hfree & Hmax & Hbig & _ & ->).
    injection Hs as <-. exists n. split; [reflexivity |].
    split; [apply searched_name_is_valid; assumption |].
    split; [reflexivity |].
    split; [repeat split; assumption |].
    cbn. rewrite <- !app_assoc. reflexivity.
  - left. pose proof (insert_user_next (db w) (PStr n) t t) as Hnext.
    rewrite Hins in Hnext. simpl in Hnext.
    apply insert_user_refused in Hins as [[msg ->] Hrows].
    exists n, msg, d. split; [assumption |]. split; [assumption |]. cbn.
    rewrite <- !app_assoc. reflexivity.
Qed.

(** X5. Everything Create can do. It answers 401 for a wrong key; lets
    the framework's [HTTPError] 400 escape when a value given for [name] is
    not UTF-8; lets [MissingArgumentError] escape when there is no [name];
    answers 400 with one of the two name errors; lets the store's error
    escape, the rows being as they were and the transaction left aborted;
    or, on a connection whose transaction is not aborted, answers 200,
    having read the clock once and appended one row that carries the next
    id of the sequence, the name and that reading twice, and committed.
    Before the clock is read nothing but log entries is produced; "Invalid
    name" and the 500 answer never occur. *)
Theorem create_outcomes env req w :
  let out := UsersHandler.post env req w in
  let t := clock env (reads w) in
  let uid := Z.pos (Store.next_id (db w)) in
  out = (Ok unauthorized, logged w [EvLog "Invalid key"])
  \/ (~ decodable req "name"
      /\ out = (Raise (HTTPError 400 "Invalid unicode in name"), w))
  \/ (decodable req "name" /\ submitted req "name" = None
      /\ out = (Raise (MissingArgumentError "name"), w))
  \/ (exists msg,
        (msg = "Name cannot be empty"
         \/ msg = "Name cannot be filled with number or symbol")
        /\ out = (Ok (bad_request msg), logged w [EvLog msg]))
  \/ (exists n msg d,
        Store.rows d = Store.rows (db w)
        /\ (Store.next_id (db w) <= Store.next_id d)%positive
        /\ out = (Raise (DatabaseError msg),
                  {| db := d; reads := S (reads w);
                     trace := trace w ++ [EvTime t; EvSql (Store.InsertUser (PStr n) t t)];
                     aborted := true |}))
  \/ (exists n,
        submitted req "name" = Some n /\ valid_name n
        /\ aborted w = false
        /\ store_accepts (db w) t
        /\ out = (Ok (user_response uid n t t),
                  {| db := {| Store.rows := Store.rows (db w) ++ [new_row uid n t];
                              Store.next_id := Pos.succ (Store.next_id (db w)) |};
                     reads := S (reads w);
                     trace := trace w ++ [EvTime t; EvSql (Store.InsertUser (PStr n) t t);
                                          EvCommit];
                     aborted := false |})).
Proof. exact (post_cases env req w). Qed.

(** The world after [UsersHandler.get] and after [UserDetailHandler.get]. *)
Lemma getters_world env req path w :
  only_read w (snd (UsersHandler.get env req w))
  /\ only_read w (snd (UserDetailHandler.get env req path w)).
Proof.
  unfold only_read.
  split; handler_paths; simpl;
    first [ exists []; rewrite app_nil_r; repeat split; congruence
          | rewrite <- ?app_assoc; simpl;
            eexists; repeat split; congruence ].
Qed.

(** X6. List and GetById only read. Whatever the request and however it
    ends, the table, the sequence and the clock are as before; the effects
    are log entries and [SELECT] statements, never an insert, a commit or a
    reading of the clock; and a transaction that was aborted stays so. *)
Theorem reading_endpoints_only_read env req path w :
  (exists evs,
      db (snd (UsersHandler.get env req w)) = db w
      /\ reads (snd (UsersHandler.get env req w)) = reads w
      /\ trace (snd (UsersHandler.get env req w)) = trace w ++ evs
      /\ forallb is_read_effect evs = true
      /\ (aborted w = true -> aborted (snd (UsersHandler.get env req w)) = true))
  /\ (exists evs,
         db (snd (UserDetailHandler.get env req path w)) = db w
         /\ reads (snd (UserDetailHandler.get env req path w)) = reads w
         /\ trace (snd (UserDetailHandler.get env req path w)) = trace w ++ evs
         /\ forallb is_read_effect evs = true
         /\ (aborted w = true
             -> aborted (snd (UserDetailHandler.get env req path w)) = true)).
Proof. exact (getters_world env req path w). Qed.

(** X7. What each endpoint can answer. Every answer is JSON; Create and
    List answer 200, 400 or 401, GetById 200, 400, 401 or 404, and no
    endpoint answers 500. The body says [result: true] in the 200 answers
    and only there. *)
Theorem answers_by_endpoint env r w resp w' :
  serve env r w = (Ok resp, w') ->
  content_type resp = "application/json"
  /\ match r with
     | Create _ | ListUsers _ =>
         status resp = 200 \/ status resp = 400 \/ status resp = 401
     | GetById _ _ =>
         status resp = 200 \/ status resp = 400 \/ status resp = 401
         \/ status resp = 404
     end
  /\ (status resp = 200 <->
      exists key payload, body resp = JDict [("result", JBool true); (key, payload)]).
Proof.
  destruct r as [req | req | req path]; handler_paths;
    intros [= <- <-]; simpl;
    try (split; [reflexivity |]; split; [auto |];
         split; [intros; try lia; eauto | intros (? & ? & [=]); reflexivity]).
  all: exfalso.
  all: match goal with
       | H : Store.insert_user _ _ _ _ = (_, Ok _) |- _ =>
           apply insert_user_stored in H as (? & _ & -> & _)
       end.
  all: discriminate.
Qed.

(** X8. Every error is logged before it is answered, and success is
    silent: when an endpoint answers with a status other than 200, the last
    effect before the answer is a log entry; when it answers 200, it has
    logged nothing. *)
Theorem errors_are_logged env r w resp w' :
  serve env r w = (Ok resp, w') ->
  exists evs,
    trace w' = trace w ++ evs
    /\ (status resp = 200 -> forall e, In e evs -> is_log e = false)
    /\ (status resp <> 200 -> exists pre msg, evs = pre ++ [EvLog msg]).
Proof.
  destruct r as [req | req | req path]; handler_paths;
    intros [= <- <-]; simpl; rewrite <- ?app_assoc; simpl;
    eexists; (split; [reflexivity |]);
    (split; [intros Hst; try discriminate Hst; simpl;
             intros e He; repeat (destruct He as [<- | He]; [reflexivity |]);
             destruct He |]);
    intros Hst; try (exfalso; apply Hst; reflexivity);
    first [ refine (ex_intro _ [] (ex_intro _ _ eq_refl))
          | refine (ex_intro _ [_] (ex_intro _ _ eq_refl))
          | refine (ex_intro _ [_; _] (ex_intro _ _ eq_refl))
          | refine (ex_intro _ [_; _; _] (ex_intro _ _ eq_refl)) ].
Qed.

(** ** Rows are only ever added *)

Lemma serve_rows env r w :
  exists more,
    Store.rows (db (snd (serve env r w))) = Store.rows (db w) ++ more
    /\ (length more <= 1)%nat
    /\ (Store.next_id (db w) <= Store.next_id (db (snd (serve env r w))))%positive
    /\ (reads w <= reads (snd (serve env r w)))%nat.
Proof.
  assert (reads w <= reads (snd (serve env r w)))%nat as Hreads.
  { destruct r as [req | req | req path]; handler_paths; simpl; lia. }
  destruct (serve_table env r w) as [E | (nm & c & u & E)]; rewrite E.
  - exists []. rewrite app_nil_r. simpl. repeat split; try lia; try assumption.
  - pose proof (insert_user_next (db w) nm c u) as Hnext. simpl in Hnext.
    destruct (insert_user_rows (db w) nm c u) as [Hr | (row & Hr & _)]; rewrite Hr.
    + exists []. rewrite app_nil_r. simpl. repeat split; try lia; try assumption.
    + exists [row]. simpl. repeat split; try lia; try assumption.
Qed.

(** X9. No request changes or removes a row. After any sequence of
    requests the table is the table before, row for row, followed by the
    rows created since, at most one for each request; the sequence and the
    count of clock readings never go back. *)
Theorem rows_are_only_added env rs w :
  exists more,
    Store.rows (db (serve_all env rs w)) = Store.rows (db w) ++ more
    /\ (length more <= length rs)%nat
    /\ (Store.next_id (db w) <= Store.next_id (db (serve_all env rs w)))%positive
    /\ (reads w <= reads (serve_all env rs w))%nat.
Proof.
  revert w. induction rs as [| r rs IH]; intros w; simpl.
  - exists []. rewrite app_nil_r. simpl. repeat split; lia.
  - destruct (serve_rows env r w) as (m1 & H1 & L1 & N1 & R1).
    destruct (IH (snd (serve env r w))) as (m2 & H2 & L2 & N2 & R2).
    exists (m1 ++ m2). rewrite H2, H1, <- app_assoc, length_app.
    repeat split; lia.
Qed.

(** ** The routes *)

(** X10. The routes of [make_app]. A request is served by a handler only as
    POST /users (Create), GET /users (List) or GET /users/<digits>
    (GetById, with those digits as the id text); any other method or path
    is left to the framework. Only POST /users can change the table. *)
Theorem routes_of_the_app env method path req r w :
  make_app method path req = Handled r ->
  (method = "POST" /\ match_users path = true /\ r = Create req)
  \/ ((method = "GET" /\ match_users path = true /\ r = ListUsers req
       \/ method = "GET" /\ match_users path = false
          /\ exists user_id, match_user_detail path = Some user_id
                             /\ r = GetById req user_id)
      /\ db (snd (serve env r w)) = db w).
Proof.
  unfold make_app.
  destruct (match_users path) eqn:Hu.
  - destruct (decide (method = "POST")) as [-> | _]; [intros [= <-]; auto |].
    destruct (decide (method = "GET")) as [-> | _]; [| discriminate].
    intros [= <-]. right. split; [auto |].
    unfold serve. destruct (getters_world env req "" w) as [(evs & -> & _) _].
    reflexivity.
  - destruct (match_user_detail path) as [d |] eqn:Hd; [| discriminate].
    destruct (decide (method = "GET")) as [-> | _]; [| discriminate].
    intros [= <-]. right. split; [right; eauto |].
    unfold serve. destruct (getters_world env req d w) as [_ (evs & -> & _)].
    reflexivity.
Qed.

(** ** The table the service keeps *)

Lemma lstrip_first s c :
  first_char (PyText.lstrip s) = Some c -> PyText.is_space c = false.
Proof.
  induction s as [| a s IH]; simpl; [discriminate |].
  destruct (PyText.is_space a) eqn:E; [exact IH |]. simpl. intros [= <-]. exact E.
Qed.

Lemma rstrip_first s c :
  first_char (PyText.rstrip s) = Some c -> first_char s = Some c.
Proof.
  destruct s as [| a s]; simpl; [discriminate |].
  destruct (PyText.rstrip s); [destruct (PyText.is_space a); [discriminate |] |];
    simpl; auto.
Qed.

Lemma rstrip_last s c :
  last_char (PyText.rstrip s) = Some c -> PyText.is_space c = false.
Proof.
  induction s as [| a s IH]; cbn [PyText.rstrip]; [discriminate |].
  destruct (PyText.rstrip s) as [| b r] eqn:E.
  - destruct (PyText.is_space a) eqn:Ea; [discriminate |].
    simpl. intros [= <-]. exact Ea.
  - intros H. apply IH. exact H.
Qed.

(** What [get_argument] returns has no whitespace at either end. *)
Lemma submitted_is_trimmed req name v : submitted req name = Some v -> trimmed v.
Proof.
  intros Hsub. apply submitted_sent in Hsub as (raw & _ & ->).
  unfold PyText.strip. intros c [Hc | Hc].
  - apply rstrip_first in Hc. apply (lstrip_first _ _ Hc).
  - apply (rstrip_last _ _ Hc).
Qed.

Lemma row_ok_later env w w' u :
  (Store.next_id (db w) <= Store.next_id (db w'))%positive ->
  (reads w <= reads w')%nat ->
  row_ok env w u -> row_ok env w' u.
Proof.
  intros Hn Hr (Hid & Hmax & Hup & Hbig & (k & Hk & Hclock) & Hvalid & Htrim).
  refine (conj _ (conj Hmax (conj Hup (conj Hbig (conj _ (conj Hvalid Htrim)))))).
  - lia.
  - exists k. split; [lia | assumption].
Qed.

Lemma StronglySorted_snoc {A} (R : A -> A -> Prop) l y :
  StronglySorted R l -> (forall x, In x l -> R x y) -> StronglySorted R (l ++ [y]).
Proof.
  induction 1 as [| a l Hs IH Ha]; simpl; intros Hall.
  - constructor; constructor.
  - constructor; [apply IH; auto |].
    apply Forall_app. split; [assumption |].
    constructor; [apply Hall; left; reflexivity | constructor].
Qed.

Lemma table_ok_serve env r w : table_ok env w -> table_ok env (snd (serve env r w)).
Proof.
  intros [Hsorted Hrows].
  assert (forall w', db w' = db w -> reads w' = reads w -> table_ok env w') as Hsame.
  { intros w' Hd Hr. unfold table_ok. rewrite Hd. split; [assumption |].
    intros u Hu. apply (row_ok_later env w w' u); [rewrite Hd | rewrite Hr | auto]; lia. }
  destruct r as [req | req | req path]; unfold serve.
  - destruct (post_cases env req w)
      as [-> | [[_ ->] | [(_ & _ & ->) | [(msg & _ & ->)
           | [(n & msg & d & Hd & Hn & ->)
             | (n & Hsub & Hvalid & _ & Hacc & ->)]]]]];
      try (apply Hsame; reflexivity).
    + split; simpl; [rewrite Hd; assumption |].
      rewrite Hd. intros u Hu. apply (row_ok_later env w); simpl; auto.
    + destruct Hacc as (Hmax & Hbig & Hfree). split; simpl.
      * rewrite List.map_app. simpl. apply StronglySorted_snoc; [assumption |].
        intros x Hx. apply in_map_iff in Hx as (u & <- & Hu).
        destruct (Hrows u Hu) as [Hid _]. lia.
      * intros u Hu. apply in_app_or in Hu as [Hu | [<- | []]].
        -- apply (row_ok_later env w); simpl; auto; lia.
        -- unfold row_ok, new_row. simpl.
           refine (conj _ (conj Hmax (conj eq_refl (conj Hbig
                     (conj _ (conj Hvalid (submitted_is_trimmed _ _ _ Hsub))))))).
           ++ lia.
           ++ exists (reads w). split; [lia | reflexivity].
  - destruct (getters_world env req "" w) as [(evs & Hd & Hr & _) _].
    apply Hsame; assumption.
  - destruct (getters_world env req path w) as [_ (evs & Hd & Hr & _)].
    apply Hsame; assumption.
Qed.

Lemma table_ok_serve_all env rs w :
  table_ok env w -> table_ok env (serve_all env rs w).
Proof.
  revert w. induction rs as [| r rs IH]; simpl; intros w Hw; [assumption |].
  apply IH. apply table_ok_serve. exact Hw.
Qed.

(** X11. The table the service builds from nothing, after any requests:
    the ids grow strictly along the rows and lie between 1 and the
    sequence's next value; every row has [updated_at = created_at], a
    [BIGINT] that is one of the readings of the clock; and every name is
    non-empty, made of spaces and word characters that are not decimal
    digits, and free of whitespace at both ends. *)
Theorem service_table_is_well_formed env rs :
  table_ok env (serve_all env rs fresh_world).
Proof.
  apply table_ok_serve_all. split; simpl; [constructor | intros u []].
Qed.

(** X12. Every user the service stored can be fetched while the
    connection is in no aborted transaction: on a table the service built,
    a GetById with a valid credential and a path that reads as the id of a
    row answers 200 with exactly that row's id, name and timestamps. On a
    connection whose transaction is aborted the same request is refused by
    the store, and its error leaves the handler. *)
Theorem stored_user_is_found env rs req path u :
  let w := serve_all env rs fresh_world in
  In u (Store.rows (db w)) ->
  key_matches env (presented_key req) ->
  PyText.py_int (PStr path) = Ok (Store.id u) ->
  (aborted w = false ->
   UserDetailHandler.get env req path w
   = (Ok (user_response (Store.id u) (Store.name u)
            (Store.created_at u) (Store.updated_at u)),
      logged w [EvSql (Store.SelectById (PInt (Store.id u)))]))
  /\ (aborted w = true ->
      UserDetailHandler.get env req path w
      = (Raise in_failed_transaction,
         logged w [EvSql (Store.SelectById (PInt (Store.id u)))])).
Proof.
  intros w Hu Hkey Hpath.
  destruct (table_ok_serve_all env rs fresh_world) as [_ Hrows].
  { split; simpl; [constructor | intros x []]. }
  destruct (Hrows u Hu) as [[Hpos _] _].
  destruct (served_table_invariants env rs fresh_world fresh_table_invariants)
    as [_ Huniq].
  rewrite (get_by_id_validated _ _ _ _ _ Hkey Hpath) by lia.
  fold w in Huniq. split; intros Hconn; rewrite Hconn.
  - rewrite (unique_id_lookup (db w) u Huniq Hu). reflexivity.
  - unfold failed, logged. cbn. rewrite Hconn. reflexivity.
Qed.

(** ** ORDER BY created_at DESC *)

Lemma insert_desc_perm rank u l : Permutation (Store.insert_desc rank u l) (u :: l).
Proof.
  induction l as [| v l IH]; simpl; [reflexivity |].
  destruct (Store.goes_before rank u v); [reflexivity |].
  rewrite IH. apply perm_swap.
Qed.

Lemma insert_desc_Forall (P : Store.User -> Prop) rank u l :
  P u -> Forall P l -> Forall P (Store.insert_desc rank u l).
Proof.
  intros Hu Hl. induction Hl as [| v l Hv Hl IH]; simpl; [repeat constructor; exact Hu |].
  destruct (Store.goes_before rank u v); repeat constructor; assumption.
Qed.

(** A row goes before another only if it is at least as new. *)
Lemma goes_before_newer rank u v :
  if Store.goes_before rank u v then newer_first u v else newer_first v u.
Proof.
  unfold Store.goes_before, newer_first.
  destruct (Z.ltb_spec (Store.created_at v) (Store.created_at u)); simpl; [lia |].
  destruct (Z.eqb_spec (Store.created_at v) (Store.created_at u)); simpl; [| lia].
  destruct (rank u <? rank v); lia.
Qed.

Lemma insert_desc_sorted rank u l :
  StronglySorted newer_first l -> StronglySorted newer_first (Store.insert_desc rank u l).
Proof.
  induction 1 as [| v l Hs IH Hv]; simpl; [repeat constructor |].
  pose proof (goes_before_newer rank u v) as Huv.
  destruct (Store.goes_before rank u v).
  - constructor; [constructor; assumption |].
    constructor; [exact Huv |].
    eapply Forall_impl; [exact Hv |]. unfold newer_first in *. intros x Hx. lia.
  - constructor; [exact IH |].
    apply insert_desc_Forall; [exact Huv | exact Hv].
Qed.

Lemma fold_insert_desc rank l acc :
  StronglySorted newer_first acc ->
  Permutation (fold_left (fun a u => Store.insert_desc rank u a) l acc) (acc ++ l)
  /\ StronglySorted newer_first (fold_left (fun a u => Store.insert_desc rank u a) l acc).
Proof.
  revert acc. induction l as [| u l IH]; simpl; intros acc Hacc.
  - rewrite app_nil_r. split; [reflexivity | assumption].
  - destruct (IH (Store.insert_desc rank u acc) (insert_desc_sorted rank u acc Hacc))
      as [Hp Hs].
    split; [| exact Hs]. rewrite Hp, insert_desc_perm. simpl.
    apply Permutation_middle.
Qed.

(** Whatever the server's choice among equal rows, the ordering has every
    row once and [created_at] never increases along it. *)
Lemma order_by_created_desc_rows rank l :
  Permutation (Store.order_by_created_desc rank l) l
  /\ StronglySorted newer_first (Store.order_by_created_desc rank l).
Proof.
  unfold Store.order_by_created_desc.
  destruct (fold_insert_desc rank l [] (SSorted_nil _)) as [Hp Hs]. auto.
Qed.

(** Rows that differ in [created_at] have one such ordering. *)
Lemma newer_first_sorted_unique s1 s2 :
  NoDup (List.map Store.created_at s1) ->
  Permutation s1 s2 ->
  StronglySorted newer_first s1 -> StronglySorted newer_first s2 ->
  s1 = s2.
Proof.
  revert s2. induction s1 as [| a t1 IH]; intros s2 Hnd Hp H1 H2.
  - apply Permutation_nil in Hp. auto.
  - destruct s2 as [| b t2].
    { apply Permutation_sym, Permutation_nil in Hp. discriminate Hp. }
    apply StronglySorted_inv in H1 as [H1 Ha].
    apply StronglySorted_inv in H2 as [H2 Hb].
    rewrite List.Forall_forall in Ha, Hb.
    simpl in Hnd. apply NoDup_cons in Hnd as [Hfresh Hnd].
    assert (a = b) as <-.
    { assert (In b (a :: t1)) as Hin
        by (apply (Permutation_in _ (Permutation_sym Hp)); left; reflexivity).
      assert (In a (b :: t2)) as Hin'
        by (apply (Permutation_in _ Hp); left; reflexivity).
      destruct Hin as [E | Hin]; [exact E |].
      destruct Hin' as [E | Hin']; [symmetry; exact E |].
      pose proof (Ha b Hin) as Hab. pose proof (Hb a Hin') as Hba.
      unfold newer_first in Hab, Hba.
      exfalso. apply Hfresh. apply list_elem_of_In.
      replace (Store.created_at a) with (Store.created_at b) by lia.
      apply in_map. exact Hin. }
    f_equal. apply IH; try assumption.
    apply (Permutation_cons_inv Hp).
Qed.

Lemma order_by_created_desc_unique rank rank' l :
  NoDup (List.map Store.created_at l) ->
  Store.order_by_created_desc rank l = Store.order_by_created_desc rank' l.
Proof.
  intros Hnd.
  destruct (order_by_created_desc_rows rank l) as [Hp Hs].
  destruct (order_by_created_desc_rows rank' l) as [Hp' Hs'].
  apply newer_first_sorted_unique; try assumption.
  - rewrite (Permutation_map Store.created_at Hp). exact Hnd.
  - rewrite Hp, Hp'. reflexivity.
Qed.

(** *** The server's choice

    The ordering is the one by [created_at] descending and then by rank;
    and every ordering by [created_at] descending of rows that differ is
    the ordering for some rank. *)

Lemma same_row_spec u v : same_row u v = true <-> u = v.
Proof.
  unfold same_row. rewrite !andb_true_iff, !Z.eqb_eq, String.eqb_eq.
  destruct u, v; simpl. split.
  - intros [[[-> ->] ->] ->]. reflexivity.
  - intros [= -> -> -> ->]. auto.
Qed.

Lemma goes_before_ranked rank u v :
  if Store.goes_before rank u v then ranked_first rank u v else ranked_first rank v u.
Proof.
  unfold Store.goes_before, ranked_first.
  destruct (Z.ltb_spec (Store.created_at v) (Store.created_at u)); simpl; [lia |].
  destruct (Z.eqb_spec (Store.created_at v) (Store.created_at u)); simpl; [| lia].
  destruct (Z.ltb_spec (rank u) (rank v)); lia.
Qed.

Lemma insert_desc_ranked rank u l :
  StronglySorted (ranked_first rank) l ->
  StronglySorted (ranked_first rank) (Store.insert_desc rank u l).
Proof.
  induction 1 as [| v l Hs IH Hv]; simpl; [repeat constructor |].
  pose proof (goes_before_ranked rank u v) as Huv.
  destruct (Store.goes_before rank u v).
  - constructor; [constructor; assumption |].
    constructor; [exact Huv |].
    eapply Forall_impl; [exact Hv |]. unfold ranked_first in *. intros x Hx. lia.
  - constructor; [exact IH |].
    apply insert_desc_Forall; [exact Huv | exact Hv].
Qed.

Lemma order_by_created_desc_ranked rank l :
  StronglySorted (ranked_first rank) (Store.order_by_created_desc rank l).
Proof.
  unfold Store.order_by_created_desc.
  assert (forall acc, StronglySorted (ranked_first rank) acc ->
            StronglySorted (ranked_first rank)
              (fold_left (fun a u => Store.insert_desc rank u a) l acc)) as H.
  { induction l as [| u l IH]; simpl; intros acc Hacc; [assumption |].
    apply IH. apply insert_desc_ranked. exact Hacc. }
  apply H. constructor.
Qed.

Lemma ranked_first_unique rank s1 s2 :
  (forall x y, In x s1 -> In y s1 ->
     Store.created_at x = Store.created_at y -> rank x = rank y -> x = y) ->
  Permutation s1 s2 ->
  StronglySorted (ranked_first rank) s1 -> StronglySorted (ranked_first rank) s2 ->
  s1 = s2.
Proof.
  revert s2. induction s1 as [| a t1 IH]; intros s2 Hinj Hp H1 H2.
  - apply Permutation_nil in Hp. auto.
  - destruct s2 as [| b t2].
    { apply Permutation_sym, Permutation_nil in Hp. discriminate Hp. }
    apply StronglySorted_inv in H1 as [H1 Ha].
    apply StronglySorted_inv in H2 as [H2 Hb].
    rewrite List.Forall_forall in Ha, Hb.
    assert (In b (a :: t1)) as Hin
      by (apply (Permutation_in _ (Permutation_sym Hp)); left; reflexivity).
    assert (In a (b :: t2)) as Hin'
      by (apply (Permutation_in _ Hp); left; reflexivity).
    assert (a = b) as <-.
    { destruct Hin as [E | Hinb]; [exact E |].
      destruct Hin' as [E | Hina]; [symmetry; exact E |].
      pose proof (Ha b Hinb) as Hab. pose proof (Hb a Hina) as Hba.
      unfold ranked_first in Hab, Hba.
      apply Hinj; [left; reflexivity | right; exact Hinb | lia | lia]. }
    f_equal. apply IH; try assumption.
    + intros x y Hx Hy. apply Hinj; right; assumption.
    + apply (Permutation_cons_inv Hp).
Qed.

Lemma position_cons a t x :
  x <> a -> position (a :: t) x = 1 + position t x.
Proof.
  intros Hne. simpl. destruct (same_row a x) eqn:E; [| reflexivity].
  apply same_row_spec in E. congruence.
Qed.

Lemma position_range s x : 0 <= position s x.
Proof. induction s as [| a t IH]; simpl; [lia |]. destruct (same_row a x); lia. Qed.

Lemma position_inj s x y :
  In x s -> In y s -> position s x = position s y -> x = y.
Proof.
  induction s as [| a t IH]; simpl; [intros [] |]. intros Hx Hy.
  destruct (same_row a x) eqn:Ex, (same_row a y) eqn:Ey.
  - apply same_row_spec in Ex, Ey. congruence.
  - pose proof (position_range t y). lia.
  - pose proof (position_range t x). lia.
  - intros H. apply IH; [| | lia].
    + destruct Hx as [-> | Hx]; [| exact Hx].
      assert (same_row x x = true) by (apply same_row_spec; reflexivity). congruence.
    + destruct Hy as [-> | Hy]; [| exact Hy].
      assert (same_row y y = true) by (apply same_row_spec; reflexivity). congruence.
Qed.

Lemma ranked_first_shift r r' l :
  (forall x, In x l -> r' x = 1 + r x) ->
  StronglySorted (ranked_first r) l -> StronglySorted (ranked_first r') l.
Proof.
  intros Hshift Hs. induction Hs as [| a t Hs IH Ha]; [constructor |].
  constructor.
  - apply IH. intros x Hx. apply Hshift. right. exact Hx.
  - rewrite List.Forall_forall in *. intros x Hx. specialize (Ha x Hx).
    unfold ranked_first in *.
    rewrite (Hshift a (or_introl eq_refl)), (Hshift x (or_intror Hx)). lia.
Qed.

Lemma position_ranked s :
  NoDup s -> StronglySorted newer_first s -> StronglySorted (ranked_first (position s)) s.
Proof.
  induction s as [| a t IH]; intros Hnd Hs; [constructor |].
  apply NoDup_cons in Hnd as [Hfresh Hnd].
  apply StronglySorted_inv in Hs as [Hs Ha].
  assert (forall x, In x t -> x <> a) as Hne.
  { intros x Hx ->. apply Hfresh. apply list_elem_of_In. exact Hx. }
  constructor.
  - apply (ranked_first_shift (position t)); [| apply IH; assumption].
    intros x Hx. apply position_cons. apply Hne. exact Hx.
  - rewrite List.Forall_forall in *. intros x Hx. specialize (Ha x Hx).
    unfold ranked_first, newer_first in *.
    rewrite (position_cons a t x (Hne x Hx)).
    assert (position (a :: t) a = 0) as ->.
    { simpl. assert (same_row a a = true) as -> by (apply same_row_spec; reflexivity).
      reflexivity. }
    pose proof (position_range t x). lia.
Qed.

(** Every ordering of distinct rows by [created_at] descending is one the
    server may choose. *)
Lemma every_ordering_is_a_choice l s :
  Permutation s l -> NoDup s -> StronglySorted newer_first s ->
  Store.order_by_created_desc (position s) l = s.
Proof.
  intros Hp Hnd Hs.
  destruct (order_by_created_desc_rows (position s) l) as [Hperm _].
  symmetry. apply (ranked_first_unique (position s)).
  - intros x y Hx Hy _ Hr. apply (position_inj s); assumption.
  - etransitivity; [exact Hp | symmetry; exact Hperm].
  - apply position_ranked; assumption.
  - apply order_by_created_desc_ranked.
Qed.

(** ** Pages *)

Lemma page_arguments_read req n m :
  page_num_of req = Ok n ->
  page_size_of req = Ok m ->
  exists v1 v2,
    Tornado.get_argument req "page_num" (Some (PInt 1)) = Ok v1
    /\ Tornado.get_argument req "page_size" (Some (PInt 10)) = Ok v2
    /\ PyText.py_int v1 = Ok n /\ PyText.py_int v2 = Ok m.
Proof.
  unfold page_num_of, page_size_of.
  destruct (Tornado.get_argument req "page_num" _) as [v1 |]; [| discriminate].
  destruct (Tornado.get_argument req "page_size" _) as [v2 |]; [| discriminate].
  eauto 10.
Qed.

(** List once its credential and both arguments are accepted. *)
Lemma list_evaluated env req w n m :
  key_matches env (presented_key req) ->
  page_num_of req = Ok n ->
  page_size_of req = Ok m ->
  let q := Store.SelectPage m ((n - 1) * m) in
  UsersHandler.get env req w
  = if aborted w then (Raise in_failed_transaction, failed (logged w [EvSql q]))
    else
      match Store.select_page (db w) (tie_rank env w q) m ((n - 1) * m) with
      | Ok page => (Ok (users_response page), logged w [EvSql q])
      | Raise e => (Raise e, failed (logged w [EvSql q]))
      end.
Proof.
  intros Hkey Hn Hm q. apply key_matches_credential in Hkey.
  destruct (page_arguments_read req n m Hn Hm) as (v1 & v2 & H1 & H2 & Hv1 & Hv2).
  rewrite (list_read env req w v1 v2 Hkey H1 H2), Hv1, Hv2. reflexivity.
Qed.

Lemma select_page_in_range d rank limit offset :
  0 <= limit <= Store.bigint_max ->
  0 <= offset <= Store.bigint_max ->
  Store.select_page d rank limit offset
  = Ok (take (Z.to_nat limit)
          (drop (Z.to_nat offset) (Store.order_by_created_desc rank (Store.rows d)))).
Proof.
  intros Hl Ho. unfold Store.select_page, Store.is_bigint.
  unfold Store.bigint_max, Store.bigint_min in *.
  destruct (Z.leb_spec (-9223372036854775808) offset); [| lia].
  destruct (Z.leb_spec offset 9223372036854775807); [| lia].
  destruct (Z.leb_spec (-9223372036854775808) limit); [| lia].
  destruct (Z.leb_spec limit 9223372036854775807); [| lia]. simpl.
  destruct (Z.ltb_spec offset 0); [lia |].
  destruct (Z.ltb_spec limit 0); [lia | reflexivity].
Qed.

Lemma StronglySorted_drop {A} (R : A -> A -> Prop) k l :
  StronglySorted R l -> StronglySorted R (drop k l).
Proof.
  intros Hs. revert k. induction Hs as [| a l Hs IH Ha]; intros [| k]; simpl;
    try constructor; auto.
Qed.

Lemma StronglySorted_take {A} (R : A -> A -> Prop) k l :
  StronglySorted R l -> StronglySorted R (take k l).
Proof.
  intros Hs. revert k. induction Hs as [| a l Hs IH Ha]; intros [| k]; simpl;
    try constructor; auto.
  apply Forall_take. exact Ha.
Qed.

Lemma In_take {A} (x : A) k l : In x (take k l) -> In x l.
Proof.
  revert k. induction l as [| a l IH]; intros [| k]; simpl; try tauto.
  intros [-> | H]; [left; reflexivity | right; apply (IH k H)].
Qed.

Lemma In_drop {A} (x : A) k l : In x (drop k l) -> In x l.
Proof.
  revert k. induction l as [| a l IH]; intros [| k]; simpl; try tauto.
  intros H. right. apply (IH k H).
Qed.

Lemma In_take_drop {A} (x : A) a b l : In x (take a (drop b l)) -> In x l.
Proof. intros H. apply In_take in H. apply In_drop in H. exact H. Qed.

(** X14. A page of List. With a valid credential, a [page_size] [m >= 0]
    and an offset [(page_num - 1) * m >= 0] (both within [BIGINT]), on a
    connection whose transaction is not aborted, List answers 200 with a
    page cut from an ordering of the table's rows in which [created_at]
    never increases (which of the rows of equal [created_at] come first is
    the server's choice for this statement): the page leaves out the first
    [(page_num - 1) * m] rows of the ordering and keeps at most [m], as many
    as are left, up to [m]; every user listed is a row of the table. *)
Theorem list_page env req w n m :
  key_matches env (presented_key req) ->
  page_num_of req = Ok n ->
  page_size_of req = Ok m ->
  0 <= m <= Store.bigint_max ->
  0 <= (n - 1) * m <= Store.bigint_max ->
  aborted w = false ->
  exists page ordering,
    UsersHandler.get env req w
    = (Ok (users_response page), logged w [EvSql (Store.SelectPage m ((n - 1) * m))])
    /\ Permutation ordering (Store.rows (db w))
    /\ StronglySorted newer_first ordering
    /\ page = take (Z.to_nat m) (drop (Z.to_nat ((n - 1) * m)) ordering)
    /\ Z.of_nat (length page)
       = Z.min m (Z.max 0 (Z.of_nat (length (Store.rows (db w))) - (n - 1) * m))
    /\ StronglySorted newer_first page
    /\ (forall u, In u page -> In u (Store.rows (db w))).
Proof.
  intros Hkey Hn Hm Hlim Hoff Hconn.
  rewrite (list_evaluated env req w n m Hkey Hn Hm), Hconn.
  rewrite (select_page_in_range _ _ _ _ Hlim Hoff).
  destruct (order_by_created_desc_rows (tie_rank env w (Store.SelectPage m ((n - 1) * m)))
              (Store.rows (db w))) as [Hperm Hsorted].
  eexists _, _. split; [reflexivity |]. split; [exact Hperm |].
  split; [exact Hsorted |]. split; [reflexivity |]. split; [| split].
  - rewrite length_take, length_drop, (Permutation_length Hperm). lia.
  - apply StronglySorted_take, StronglySorted_drop. exact Hsorted.
  - intros u Hu. apply In_take_drop in Hu.
    apply (Permutation_in _ Hperm). exact Hu.
Qed.

(** X13. The whole list. With a valid credential, on a connection whose
    transaction is not aborted, the first page of a size that is at least
    the number of rows shows every row of the table exactly once, with
    [created_at] never increasing from one user to the next. *)
Theorem full_listing env req w m :
  key_matches env (presented_key req) ->
  page_num_of req = Ok 1 ->
  page_size_of req = Ok m ->
  Z.of_nat (length (Store.rows (db w))) <= m <= Store.bigint_max ->
  aborted w = false ->
  exists page,
    UsersHandler.get env req w
    = (Ok (users_response page), logged w [EvSql (Store.SelectPage m 0)])
    /\ Permutation page (Store.rows (db w))
    /\ StronglySorted newer_first page.
Proof.
  intros Hkey Hn Hm Hlim Hconn.
  rewrite (list_evaluated env req w 1 m Hkey Hn Hm), Hconn.
  change ((1 - 1) * m) with 0.
  assert (0 <= m <= Store.bigint_max) as Hm0 by lia.
  assert (0 <= 0 <= Store.bigint_max) as H00 by (unfold Store.bigint_max; lia).
  rewrite (select_page_in_range (db w) _ m 0 Hm0 H00).
  destruct (order_by_created_desc_rows (tie_rank env w (Store.SelectPage m 0))
              (Store.rows (db w))) as [Hperm Hsorted].
  eexists. split; [reflexivity |].
  change (Z.to_nat 0) with 0%nat. rewrite drop_0, take_ge.
  - auto.
  - rewrite (Permutation_length Hperm). lia.
Qed.

Lemma take_drop_next {A} (l : list A) k m :
  take m (drop k l) ++ take m (drop (k + m) l) = take (m + m) (drop k l).
Proof. rewrite <- drop_drop. apply take_take_drop. Qed.

(** X15. Consecutive pages. On a table the service built in which no two
    rows have the same [created_at], and a connection whose transaction is
    not aborted, the pages [page_num] and [page_num + 1] of the same
    non-negative size, asked for one after the other, are together the next
    [2 * page_size] rows after the first [(page_num - 1) * page_size] of the
    one ordering by [created_at] descending; no user is on both pages. *)
Theorem consecutive_pages env rs req1 req2 n m :
  let w := serve_all env rs fresh_world in
  key_matches env (presented_key req1) ->
  key_matches env (presented_key req2) ->
  page_num_of req1 = Ok n -> page_size_of req1 = Ok m ->
  page_num_of req2 = Ok (n + 1) -> page_size_of req2 = Ok m ->
  1 <= n -> 0 <= m -> n * m <= Store.bigint_max ->
  aborted w = false ->
  NoDup (List.map Store.created_at (Store.rows (db w))) ->
  exists p1 p2 w1 w2 ordering,
    UsersHandler.get env req1 w = (Ok (users_response p1), w1)
    /\ UsersHandler.get env req2 w1 = (Ok (users_response p2), w2)
    /\ Permutation ordering (Store.rows (db w))
    /\ StronglySorted newer_first ordering
    /\ p1 ++ p2 = take (Z.to_nat (2 * m)) (drop (Z.to_nat ((n - 1) * m)) ordering)
    /\ NoDup (List.map Store.id (p1 ++ p2)).
Proof.
  intros w Hk1 Hk2 Hn1 Hm1 Hn2 Hm2 Hn Hm Hmax Hconn Hdistinct.
  assert (0 <= m <= Store.bigint_max) as Hlim by nia.
  assert (0 <= (n - 1) * m <= Store.bigint_max) as Hoff1 by nia.
  assert (0 <= (n + 1 - 1) * m <= Store.bigint_max) as Hoff2
    by (replace (n + 1 - 1) with n by lia; nia).
  rewrite (list_evaluated env req1 w n m Hk1 Hn1 Hm1), Hconn.
  rewrite (select_page_in_range _ _ _ _ Hlim Hoff1).
  set (rank := tie_rank env w (Store.SelectPage m ((n - 1) * m))).
  set (sorted := Store.order_by_created_desc rank (Store.rows (db w))).
  eexists _, _, _, _, sorted. split; [reflexivity |].
  rewrite (list_evaluated env req2 _ (n + 1) m Hk2 Hn2 Hm2).
  cbn [db logged aborted trace]. rewrite Hconn.
  rewrite (select_page_in_range _ _ _ _ Hlim Hoff2).
  rewrite (order_by_created_desc_unique _ rank _ Hdistinct).
  fold sorted.
  split; [reflexivity |].
  destruct (order_by_created_desc_rows rank (Store.rows (db w))) as [Hperm Hsorted].
  fold sorted in Hperm, Hsorted.
  split; [exact Hperm |]. split; [exact Hsorted |].
  assert (Z.to_nat ((n + 1 - 1) * m) = (Z.to_nat ((n - 1) * m) + Z.to_nat m)%nat) as ->
    by nia.
  rewrite take_drop_next.
  replace (Z.to_nat m + Z.to_nat m)%nat with (Z.to_nat (2 * m)) by lia.
  split; [reflexivity |].
  destruct (served_table_invariants env rs fresh_world fresh_table_invariants)
    as [_ Huniq].
  fold w in Huniq. unfold ids_unique in Huniq.
  assert (NoDup (List.map Store.id sorted)) as Hnd.
  { rewrite (Permutation_map Store.id Hperm). exact Huniq. }
  rewrite <- (take_drop (Z.to_nat ((n - 1) * m)) sorted), List.map_app in Hnd.
  apply NoDup_app in Hnd as (_ & _ & Hnd).
  rewrite <- (take_drop (Z.to_nat (2 * m)) (drop _ sorted)), List.map_app in Hnd.
  apply NoDup_app in Hnd as (Hnd & _ & _). exact Hnd.
Qed.

(** X16. Pages that do not exist are not answered. With a valid credential,
    a negative [page_size], or a positive [page_size] with a [page_num]
    below 1, makes the store reject the statement, whatever the state of
    the connection; List catches nothing, so the error leaves the handler,
    no answer is written, and the transaction is left aborted. *)
Theorem list_out_of_range env req w n m :
  key_matches env (presented_key req) ->
  page_num_of req = Ok n ->
  page_size_of req = Ok m ->
  m < 0 \/ (0 < m /\ n < 1) ->
  exists msg,
    UsersHandler.get env req w
    = (Raise (DatabaseError msg),
       failed (logged w [EvSql (Store.SelectPage m ((n - 1) * m))])).
Proof.
  intros Hkey Hn Hm Hout.
  rewrite (list_evaluated env req w n m Hkey Hn Hm).
  destruct (aborted w); [unfold in_failed_transaction; eauto |].
  unfold Store.select_page.
  destruct (negb _); [eauto |].
  destruct (Z.ltb_spec ((n - 1) * m) 0); [eauto |].
  destruct (Z.ltb_spec m 0); [eauto |].
  exfalso. nia.
Qed.

(** ** Create, then List *)

(** A row newer than all the others heads every ordering. *)
Lemma newest_row_is_first x l ordering :
  (forall y, In y l -> Store.created_at y < Store.created_at x) ->
  Permutation ordering (l ++ [x]) ->
  StronglySorted newer_first ordering ->
  exists rest, ordering = x :: rest.
Proof.
  intros Hnew Hp Hs. destruct ordering as [| h t].
  { apply Permutation_nil in Hp. destruct l; discriminate Hp. }
  exists t. f_equal.
  assert (In h (l ++ [x])) as Hh by (apply (Permutation_in _ Hp); left; reflexivity).
  apply in_app_or in Hh as [Hh | [<- | []]]; [| reflexivity].
  exfalso. specialize (Hnew h Hh).
  assert (In x (h :: t)) as Hx.
  { apply (Permutation_in _ (Permutation_sym Hp)). apply in_or_app. right. left.
    reflexivity. }
  destruct Hx as [<- | Hx]; [lia |].
  apply StronglySorted_inv in Hs as [_ Hall].
  rewrite List.Forall_forall in Hall. specialize (Hall x Hx).
  unfold newer_first in Hall. lia.
Qed.

(** X17. A user just created heads the list. When Create answers 200 with
    a reading of the clock later than every [created_at] in the table, the
    first page of List, of any positive size, starts with that user. *)
Theorem newest_user_heads_the_list env req w uid nm c u w1 req' m :
  UsersHandler.post env req w = (Ok (user_response uid nm c u), w1) ->
  (forall x, In x (Store.rows (db w)) -> Store.created_at x < c) ->
  key_matches env (presented_key req') ->
  page_num_of req' = Ok 1 ->
  page_size_of req' = Ok m ->
  0 < m <= Store.bigint_max ->
  exists rest,
    UsersHandler.get env req' w1
    = (Ok (users_response (new_row uid nm c :: rest)),
       logged w1 [EvSql (Store.SelectPage m 0)]).
Proof.
  intros Hpost Hnew Hkey Hn Hm Hlim.
  assert (Store.rows (db w1) = Store.rows (db w) ++ [new_row uid nm c]
          /\ aborted w1 = false) as [Hrows Hconn].
  { destruct (post_cases env req w)
      as [E | [[_ E] | [(_ & _ & E) | [(msg & _ & E) | [(n & msg & d & _ & _ & E)
                                         | (n & _ & _ & _ & _ & E)]]]]];
      rewrite E in Hpost; try discriminate Hpost.
    unfold user_response, answer, user_json in Hpost.
    injection Hpost as <- <- <- <- <-. split; reflexivity. }
  rewrite (list_evaluated env req' w1 1 m Hkey Hn Hm), Hconn.
  change ((1 - 1) * m) with 0.
  assert (0 <= m <= Store.bigint_max) as Hm0 by lia.
  assert (0 <= 0 <= Store.bigint_max) as H00 by (unfold Store.bigint_max; lia).
  rewrite (select_page_in_range (db w1) _ m 0 Hm0 H00).
  set (rank := tie_rank env w1 (Store.SelectPage m 0)).
  destruct (order_by_created_desc_rows rank (Store.rows (db w1))) as [Hperm Hsorted].
  assert (Permutation
            (Store.order_by_created_desc rank (Store.rows (db w1)))
            (Store.rows (db w) ++ [new_row uid nm c])) as Hperm'
    by (rewrite <- Hrows; exact Hperm).
  destruct (newest_row_is_first (new_row uid nm c) (Store.rows (db w)) _ Hnew Hperm' Hsorted)
    as [rest Hrest].
  rewrite Hrest.
  destruct (Z.to_nat m) as [| k] eqn:Ek; [lia |]. simpl. eauto.
Qed.

(** ** Names in ASCII *)

Lemma ascii_name_char_spec c :
  PyText.code c < 128 ->
  is_ascii_name_char c = true
  <-> PyText.code c = 32 \/ (PyText.is_word c = true /\ PyText.is_decimal c = false).
Proof.
  destruct c as [[|] [|] [|] [|] [|] [|] [|] [|]];
    vm_compute; intros H; try discriminate H;
    (split;
     [ intros E; first [discriminate E | left; reflexivity | right; split; reflexivity]
     | intros E;
       first [ reflexivity
             | destruct E as [E | [E1 E2]];
               first [discriminate E | discriminate E1 | discriminate E2] ] ]).
Qed.

(** X18. Which ASCII names pass. A text of ASCII characters is accepted by
    [_validate_name] exactly when it is not empty and each of its
    characters is a letter, an underscore or a space. *)
Theorem ascii_names_accepted n w :
  (forall c, In c (chars n) -> PyText.code c < 128) ->
  UsersHandler._validate_name (PStr n) w = (Ok (PStr n, None), w)
  <-> n <> "" /\ forall c, In c (chars n) -> is_ascii_name_char c = true.
Proof.
  intros Hascii. split.
  - intros Hacc. apply validate_name_accepted_inv in Hacc as (_ & Hne & _ & Hs).
    destruct (searched_name_is_valid _ Hne Hs) as [_ Hall].
    split; [assumption |]. intros c Hc.
    apply (ascii_name_char_spec c (Hascii c Hc)). apply (Hall c Hc).
  - intros [Hne Hall]. apply valid_name_accepted. split; [assumption |].
    intros c Hc. apply (ascii_name_char_spec c (Hascii c Hc)). apply (Hall c Hc).
Qed.

(** ** Reading twice *)

(** What a read answers depends on the table and on the state of the
    connection; for List also on the server's choice among rows of equal
    [created_at], when there are such. *)
Lemma read_answer_of_table env r w w' :
  is_read r = true ->
  db w = db w' -> aborted w = aborted w' ->
  (forall req, r = ListUsers req ->
               NoDup (List.map Store.created_at (Store.rows (db w)))) ->
  fst (serve env r w) = fst (serve env r w').
Proof.
  destruct w as [d k tr ab], w' as [d' k' tr' ab']. simpl. intros Hr <- <- Hdistinct.
  destruct r as [req | req | req path]; [discriminate | |].
  - specialize (Hdistinct req eq_refl).
    assert (forall rank limit offset,
               Store.select_page d rank limit offset
               = Store.select_page d (fun _ => 0) limit offset) as Hrank.
    { intros rank limit offset. unfold Store.select_page.
      rewrite (order_by_created_desc_unique rank (fun _ => 0) _ Hdistinct). reflexivity. }
    unfold serve, UsersHandler.get, bind.
    destruct (validator_key_cases env req) as [Hyes | Hno].
    + unfold presented_key in Hyes. rewrite !(validate_key_accepts _ _ _ Hyes).
      unfold lift.
      destruct (Tornado.get_argument req "page_num" _) as [v1 |]; [| reflexivity].
      destruct (Tornado.get_argument req "page_size" _) as [v2 |]; [| reflexivity].
      destruct (PyText.py_int v1); [| reflexivity].
      destruct (PyText.py_int v2); [| reflexivity].
      unfold execute_select_page, execute. cbn [aborted db trace reads].
      destruct ab; [reflexivity |].
      repeat match goal with
        | |- context [Store.select_page d (tie_rank env ?x ?q) ?l ?o] =>
            rewrite (Hrank (tie_rank env x q) l o)
        end.
      destruct (Store.select_page _ _ _ _); reflexivity.
    + pose proof (presented_key_rejected env req) as Hrej. unfold presented_key in Hrej.
      rewrite !(Hrej _ Hno). reflexivity.
  - handler_paths; reflexivity.
Qed.

Lemma reads_keep_table env rs w :
  forallb is_read rs = true ->
  db (serve_all env rs w) = db w
  /\ (aborted (serve_all env rs w) = false -> aborted w = false).
Proof.
  revert w. induction rs as [| r rs IH]; simpl; intros w Hall; [auto |].
  apply andb_true_iff in Hall as [Hr Hrs].
  destruct (IH (snd (serve env r w)) Hrs) as [Hdb Hconn]. rewrite Hdb.
  assert (only_read w (snd (serve env r w))) as (evs & Hd & _ & _ & _ & Hab).
  { destruct r as [req | req | req path]; [discriminate | |]; unfold serve.
    - exact (proj1 (getters_world env req "" w)).
    - exact (proj2 (getters_world env req path w)). }
  split; [exact Hd |].
  intros Hend. specialize (Hconn Hend).
  destruct (aborted w); [| reflexivity]. rewrite Hab in Hconn by reflexivity.
  discriminate Hconn.
Qed.

(** X19. Reads are repeatable while the connection is in no aborted
    transaction. The same GetById gets the same answer again after any
    number of List and GetById requests that leave the transaction
    unaborted; so does the same List when no two rows of the table have the
    same [created_at]. *)
Theorem reads_are_repeatable env r rs w :
  is_read r = true ->
  forallb is_read rs = true ->
  aborted (serve_all env rs w) = false ->
  (forall req, r = ListUsers req ->
               NoDup (List.map Store.created_at (Store.rows (db w)))) ->
  fst (serve env r (serve_all env rs w)) = fst (serve env r w).
Proof.
  intros Hr Hrs Hconn Hdistinct.
  destruct (reads_keep_table env rs w Hrs) as [Hdb Hback].
  apply (read_answer_of_table env r _ _ Hr Hdb).
  - rewrite Hconn. symmetry. exact (Hback Hconn).
  - intros req E. rewrite Hdb. exact (Hdistinct req E).
Qed.

(** ** After a failed statement *)

Lemma serve_aborted env r w :
  aborted w = true ->
  aborted (snd (serve env r w)) = true
  /\ db (snd (serve env r w)) = db w
  /\ forall resp, fst (serve env r w) = Ok resp -> status resp <> 200.
Proof.
  destruct w as [d k tr ab]. simpl. intros ->.
  destruct r as [req | req | req path]; handler_paths; simpl;
    repeat split; try reflexivity; intros resp [= <-]; simpl; lia.
Qed.

(** X20. A failed statement ends the service. The handlers share one
    connection that nothing rolls back, so once a statement has failed the
    transaction stays aborted through every later request: the table is
    never changed again, and no request is answered 200 any more, since
    every statement is refused. *)
Theorem failed_statement_ends_the_service env rs r w :
  aborted w = true ->
  let w' := serve_all env rs w in
  aborted w' = true
  /\ db w' = db w
  /\ forall resp, fst (serve env r w') = Ok resp -> status resp <> 200.
Proof.
  intros Hconn w'.
  assert (aborted w' = true /\ db w' = db w) as [Ha Hd].
  { subst w'. revert w Hconn. induction rs as [| r0 rs IH]; simpl; intros w Hconn; [auto |].
    destruct (serve_aborted env r0 w Hconn) as (Ha & Hd & _).
    destruct (IH _ Ha) as [Ha' Hd']. split; [exact Ha' | congruence]. }
  split; [exact Ha |]. split; [exact Hd |].
  exact (proj2 (proj2 (serve_aborted env r w' Ha))).
Qed.

(** ** Instances of the above *)

Lemma unset_secret_locks_everyone_out_witness :
  environ unset_env !! "COM_X_KEY" = None
  /\ serve unset_env (Create jane_request) fresh_world
     = (Ok unauthorized, logged fresh_world [EvLog "Invalid key"]).
Proof.
  assert (environ unset_env !! "COM_X_KEY" = None) as Hunset by reflexivity.
  split; [exact Hunset |].
  exact (unset_secret_locks_everyone_out unset_env (Create jane_request) fresh_world Hunset).
Defined.

Lemma unreadable_user_id_witness :
  let req := sample_request valid_key [] in
  key_matches sample_env (presented_key req)
  /\ PyText.py_int (PStr "12a") = Raise PyText.invalid_literal
  /\ UserDetailHandler.get sample_env req "12a" fresh_world
     = (Ok (bad_request "Invalid user_id"),
        logged fresh_world [EvLog "Error while parsing user_id"; EvLog "Invalid user_id"]).
Proof.
  intros req.
  assert (key_matches sample_env (presented_key req)) as Hkey
    by (exists "s3cret"; split; reflexivity).
  assert (PyText.py_int (PStr "12a") = Raise PyText.invalid_literal) as Hint
    by reflexivity.
  split; [exact Hkey |]. split; [exact Hint |].
  exact (unreadable_user_id sample_env req "12a" fresh_world _ Hkey Hint).
Defined.

Lemma routed_user_id_witness :
  match_user_detail "/users/42" = Some "42"
  /\ (String.length "42" <= PyText.max_str_digits)%nat
  /\ exists n, 0 <= n /\ PyText.py_int (PStr "42") = Ok n.
Proof.
  assert (match_user_detail "/users/42" = Some "42") as Hroute by reflexivity.
  assert (String.length "42" <= PyText.max_str_digits)%nat as Hlen
    by (vm_compute; lia).
  split; [exact Hroute |]. split; [exact Hlen |].
  destruct (routed_user_id "/users/42" "42" Hroute) as (_ & _ & _ & Hok & _).
  exact (Hok Hlen).
Defined.

Lemma answers_by_endpoint_witness :
  let t := 1700000000000000 in
  serve sample_env (Create jane_request) fresh_world
  = (Ok (user_response 1 "Jane Doe" t t), world_with_jane)
  /\ content_type (user_response 1 "Jane Doe" t t) = "application/json"
  /\ (status (user_response 1 "Jane Doe" t t) = 200
      \/ status (user_response 1 "Jane Doe" t t) = 400
      \/ status (user_response 1 "Jane Doe" t t) = 401).
Proof.
  intros t.
  assert (serve sample_env (Create jane_request) fresh_world
          = (Ok (user_response 1 "Jane Doe" t t), world_with_jane)) as Hserve
    by reflexivity.
  split; [exact Hserve |].
  destruct (answers_by_endpoint sample_env (Create jane_request) fresh_world
              _ _ Hserve) as (Hct & Hst & _).
  split; [exact Hct | exact Hst].
Defined.

Lemma errors_are_logged_witness :
  let req := sample_request valid_key [] in
  let w' := logged fresh_world [EvSql (Store.SelectById (PInt 7));
                                EvLog "User is not found"] in
  serve sample_env (GetById req "7") fresh_world = (Ok not_found, w')
  /\ status not_found <> 200
  /\ exists evs, trace w' = trace fresh_world ++ evs
                 /\ exists pre msg, evs = pre ++ [EvLog msg].
Proof.
  intros req w'.
  assert (serve sample_env (GetById req "7") fresh_world = (Ok not_found, w'))
    as Hserve by reflexivity.
  assert (status not_found <> 200) as Hst by (simpl; lia).
  split; [exact Hserve |]. split; [exact Hst |].
  destruct (errors_are_logged sample_env (GetById req "7") fresh_world _ _ Hserve)
    as (evs & Htrace & _ & Hlog).
  exists evs. split; [exact Htrace | exact (Hlog Hst)].
Defined.

Lemma routes_of_the_app_witness :
  let req := sample_request valid_key [] in
  make_app "GET" "/users/42" req = Handled (GetById req "42")
  /\ db (snd (serve sample_env (GetById req "42") world_with_jane)) = db world_with_jane.
Proof.
  intros req.
  assert (make_app "GET" "/users/42" req = Handled (GetById req "42")) as Hroute
    by reflexivity.
  split; [exact Hroute |].
  destruct (routes_of_the_app sample_env "GET" "/users/42" req _ world_with_jane Hroute)
    as [(Hpost & _) | [_ Hdb]]; [discriminate Hpost | exact Hdb].
Defined.

Lemma stored_user_is_found_witness :
  let rs := [Create jane_request; Create john_request] in
  let rs' := rs ++ [ListUsers (sample_request valid_key [("page_size", ["-1"])])] in
  let req := sample_request valid_key [] in
  let john := new_row 2 "John" 1700000000000001 in
  In john (Store.rows (db (serve_all sample_env rs fresh_world)))
  /\ In john (Store.rows (db (serve_all sample_env rs' fresh_world)))
  /\ key_matches sample_env (presented_key req)
  /\ PyText.py_int (PStr "2") = Ok (Store.id john)
  /\ aborted (serve_all sample_env rs fresh_world) = false
  /\ aborted (serve_all sample_env rs' fresh_world) = true
  /\ UserDetailHandler.get sample_env req "2" (serve_all sample_env rs fresh_world)
     = (Ok (user_response 2 "John" 1700000000000001 1700000000000001),
        logged (serve_all sample_env rs fresh_world)
          [EvSql (Store.SelectById (PInt 2))])
  /\ UserDetailHandler.get sample_env req "2" (serve_all sample_env rs' fresh_world)
     = (Raise in_failed_transaction,
        logged (serve_all sample_env rs' fresh_world)
          [EvSql (Store.SelectById (PInt 2))]).
Proof.
  intros rs rs' req john.
  assert (In john (Store.rows (db (serve_all sample_env rs fresh_world)))) as Hin
    by (vm_compute; auto).
  assert (In john (Store.rows (db (serve_all sample_env rs' fresh_world)))) as Hin'
    by (vm_compute; auto).
  assert (key_matches sample_env (presented_key req)) as Hkey
    by (exists "s3cret"; split; reflexivity).
  assert (PyText.py_int (PStr "2") = Ok (Store.id john)) as Hint by reflexivity.
  assert (aborted (serve_all sample_env rs fresh_world) = false) as Hconn by reflexivity.
  assert (aborted (serve_all sample_env rs' fresh_world) = true) as Hconn' by reflexivity.
  repeat (split; [assumption |]). split.
  - exact (proj1 (stored_user_is_found sample_env rs req "2" john Hin Hkey Hint) Hconn).
  - exact (proj2 (stored_user_is_found sample_env rs' req "2" john Hin' Hkey Hint) Hconn').
Defined.

Lemma list_page_witness :
  let req := sample_request valid_key [("page_num", ["2"]); ("page_size", ["1"])] in
  let jane := new_row 1 "Jane Doe" 1700000000000000 in
  key_matches sample_env (presented_key req)
  /\ page_num_of req = Ok 2
  /\ page_size_of req = Ok 1
  /\ 0 <= 1 <= Store.bigint_max
  /\ 0 <= (2 - 1) * 1 <= Store.bigint_max
  /\ aborted world_with_two = false
  /\ exists page ordering,
       UsersHandler.get sample_env req world_with_two
       = (Ok (users_response page),
          logged world_with_two [EvSql (Store.SelectPage 1 ((2 - 1) * 1))])
       /\ Permutation ordering (Store.rows (db world_with_two))
       /\ StronglySorted newer_first ordering
       /\ page = take 1 (drop 1 ordering)
       /\ Z.of_nat (length page) = 1.
Proof.
  intros req jane.
  assert (key_matches sample_env (presented_key req)) as Hkey
    by (exists "s3cret"; split; reflexivity).
  assert (page_num_of req = Ok 2) as Hn by reflexivity.
  assert (page_size_of req = Ok 1) as Hm by reflexivity.
  assert (0 <= 1 <= Store.bigint_max) as Hlim by (vm_compute; split; discriminate).
  assert (0 <= (2 - 1) * 1 <= Store.bigint_max) as Hoff
    by (vm_compute; split; discriminate).
  assert (aborted world_with_two = false) as Hconn by reflexivity.
  repeat (split; [assumption |]).
  destruct (list_page sample_env req world_with_two 2 1 Hkey Hn Hm Hlim Hoff Hconn)
    as (page & ordering & Hget & Hperm & Hsorted & Hpage & Hlen & _).
  exists page, ordering. auto.
Defined.

Lemma consecutive_pages_witness :
  let rs := [Create jane_request; Create john_request] in
  let req1 := sample_request valid_key [("page_size", ["1"])] in
  let req2 := sample_request valid_key [("page_num", ["2"]); ("page_size", ["1"])] in
  key_matches sample_env (presented_key req1)
  /\ key_matches sample_env (presented_key req2)
  /\ page_num_of req1 = Ok 1 /\ page_size_of req1 = Ok 1
  /\ page_num_of req2 = Ok (1 + 1) /\ page_size_of req2 = Ok 1
  /\ 1 <= 1 /\ 0 <= 1 /\ 1 * 1 <= Store.bigint_max
  /\ aborted (serve_all sample_env rs fresh_world) = false
  /\ NoDup (List.map Store.created_at
              (Store.rows (db (serve_all sample_env rs fresh_world))))
  /\ exists p1 p2 w1 w2,
       UsersHandler.get sample_env req1 (serve_all sample_env rs fresh_world)
       = (Ok (users_response p1), w1)
       /\ UsersHandler.get sample_env req2 w1 = (Ok (users_response p2), w2)
       /\ NoDup (List.map Store.id (p1 ++ p2)).
Proof.
  intros rs req1 req2.
  assert (key_matches sample_env (presented_key req1)) as Hk1
    by (exists "s3cret"; split; reflexivity).
  assert (key_matches sample_env (presented_key req2)) as Hk2
    by (exists "s3cret"; split; reflexivity).
  assert (page_num_of req1 = Ok 1) as Hn1 by reflexivity.
  assert (page_size_of req1 = Ok 1) as Hm1 by reflexivity.
  assert (page_num_of req2 = Ok (1 + 1)) as Hn2 by reflexivity.
  assert (page_size_of req2 = Ok 1) as Hm2 by reflexivity.
  assert (1 <= 1) as Hn by lia.
  assert (0 <= 1) as Hm by lia.
  assert (1 * 1 <= Store.bigint_max) as Hmax by (vm_compute; discriminate).
  assert (aborted (serve_all sample_env rs fresh_world) = false) as Hconn by reflexivity.
  assert (NoDup (List.map Store.created_at
                   (Store.rows (db (serve_all sample_env rs fresh_world))))) as Hdistinct.
  { vm_compute. repeat constructor; rewrite ?list_elem_of_In; simpl; intuition discriminate. }
  repeat (split; [assumption |]).
  destruct (consecutive_pages sample_env rs req1 req2 1 1
              Hk1 Hk2 Hn1 Hm1 Hn2 Hm2 Hn Hm Hmax Hconn Hdistinct)
    as (p1 & p2 & w1 & w2 & ordering & H1 & H2 & _ & _ & _ & Hnd).
  exists p1, p2, w1, w2. auto.
Defined.

(** Where rows share a [created_at], consecutive pages need not fit
    together: with the clock standing still over two Creates and a server
    that orders equal rows one way for the first statement and the other
    way for the next, Jane Doe is on the first page and on the second, and
    John is on neither. *)
Example tied_rows_on_two_pages :
  let jane := new_row 1 "Jane Doe" 5 in
  let w := serve_all fickle_env [Create jane_request; Create john_request] fresh_world in
  let page1 := UsersHandler.get fickle_env
                 (sample_request valid_key [("page_size", ["1"])]) w in
  let page2 := UsersHandler.get fickle_env
                 (sample_request valid_key [("page_num", ["2"]); ("page_size", ["1"])])
                 (snd page1) in
  Store.rows (db w) = [jane; new_row 2 "John" 5]
  /\ fst page1 = Ok (users_response [jane])
  /\ fst page2 = Ok (users_response [jane]).
Proof. repeat split. Qed.

Lemma list_out_of_range_witness :
  let req := sample_request valid_key [("page_num", ["0"])] in
  key_matches sample_env (presented_key req)
  /\ page_num_of req = Ok 0
  /\ page_size_of req = Ok 10
  /\ (10 < 0 \/ (0 < 10 /\ 0 < 1))
  /\ exists msg,
       UsersHandler.get sample_env req world_with_jane
       = (Raise (DatabaseError msg),
          failed (logged world_with_jane [EvSql (Store.SelectPage 10 ((0 - 1) * 10))])).
Proof.
  intros req.
  assert (key_matches sample_env (presented_key req)) as Hkey
    by (exists "s3cret"; split; reflexivity).
  assert (page_num_of req = Ok 0) as Hn by reflexivity.
  assert (page_size_of req = Ok 10) as Hm by reflexivity.
  assert (10 < 0 \/ (0 < 10 /\ 0 < 1)) as Hout by lia.
  repeat (split; [assumption |]).
  exact (list_out_of_range sample_env req world_with_jane 0 10 Hkey Hn Hm Hout).
Defined.

Lemma newest_user_heads_the_list_witness :
  let t := 1700000000000001 in
  let req' := sample_request valid_key [] in
  UsersHandler.post sample_env john_request world_with_jane
  = (Ok (user_response 2 "John" t t), world_with_two)
  /\ (forall x, In x (Store.rows (db world_with_jane)) -> Store.created_at x < t)
  /\ key_matches sample_env (presented_key req')
  /\ page_num_of req' = Ok 1
  /\ page_size_of req' = Ok 10
  /\ 0 < 10 <= Store.bigint_max
  /\ exists rest,
       UsersHandler.get sample_env req' world_with_two
       = (Ok (users_response (new_row 2 "John" t :: rest)),
          logged world_with_two [EvSql (Store.SelectPage 10 0)]).
Proof.
  intros t req'.
  assert (UsersHandler.post sample_env john_request world_with_jane
          = (Ok (user_response 2 "John" t t), world_with_two)) as Hpost
    by reflexivity.
  assert (forall x, In x (Store.rows (db world_with_jane)) -> Store.created_at x < t)
    as Hnew.
  { intros x Hx. vm_compute in Hx. destruct Hx as [<- | []]. reflexivity. }
  assert (key_matches sample_env (presented_key req')) as Hkey
    by (exists "s3cret"; split; reflexivity).
  assert (page_num_of req' = Ok 1) as Hn by reflexivity.
  assert (page_size_of req' = Ok 10) as Hm by reflexivity.
  assert (0 < 10 <= Store.bigint_max) as Hlim by (vm_compute; split; [reflexivity | discriminate]).
  repeat (split; [assumption |]).
  exact (newest_user_heads_the_list sample_env john_request world_with_jane
           2 "John" t t world_with_two req' 10 Hpost Hnew Hkey Hn Hm Hlim).
Defined.

Lemma ascii_names_accepted_witness :
  (forall c, In c (chars "Jane Doe") -> PyText.code c < 128)
  /\ (UsersHandler._validate_name (PStr "Jane Doe") fresh_world
      = (Ok (PStr "Jane Doe", None), fresh_world)
      <-> "Jane Doe" <> ""
          /\ forall c, In c (chars "Jane Doe") -> is_ascii_name_char c = true).
Proof.
  assert (forall c, In c (chars "Jane Doe") -> PyText.code c < 128) as Hascii.
  { intros c Hc. simpl in Hc.
    repeat (destruct Hc as [<- | Hc]; [reflexivity |]). destruct Hc. }
  split; [exact Hascii |].
  exact (ascii_names_accepted "Jane Doe" fresh_world Hascii).
Defined.

Lemma reads_are_repeatable_witness :
  let req := sample_request valid_key [] in
  let r := GetById req "1" in
  let rs := [ListUsers req; GetById (sample_request None []) "1"] in
  is_read r = true
  /\ forallb is_read rs = true
  /\ aborted (serve_all sample_env rs world_with_jane) = false
  /\ fst (serve sample_env r (serve_all sample_env rs world_with_jane))
     = fst (serve sample_env r world_with_jane)
  /\ fst (serve sample_env (ListUsers req) (serve_all sample_env rs world_with_jane))
     = fst (serve sample_env (ListUsers req) world_with_jane).
Proof.
  intros req r rs.
  assert (is_read r = true) as Hr by reflexivity.
  assert (forallb is_read rs = true) as Hrs by reflexivity.
  assert (aborted (serve_all sample_env rs world_with_jane) = false) as Hconn
    by reflexivity.
  repeat (split; [assumption |]). split.
  - apply (reads_are_repeatable sample_env r rs world_with_jane Hr Hrs Hconn).
    intros req0 E. discriminate E.
  - apply (reads_are_repeatable sample_env (ListUsers req) rs world_with_jane
             eq_refl Hrs Hconn).
    intros _ _. vm_compute. repeat constructor.
    rewrite list_elem_of_In. simpl. tauto.
Defined.

Lemma full_listing_witness :
  let req := sample_request valid_key [] in
  key_matches sample_env (presented_key req)
  /\ page_num_of req = Ok 1
  /\ page_size_of req = Ok 10
  /\ Z.of_nat (length (Store.rows (db world_with_two))) <= 10 <= Store.bigint_max
  /\ aborted world_with_two = false
  /\ exists page,
       UsersHandler.get sample_env req world_with_two
       = (Ok (users_response page), logged world_with_two [EvSql (Store.SelectPage 10 0)])
       /\ Permutation page (Store.rows (db world_with_two))
       /\ StronglySorted newer_first page.
Proof.
  intros req.
  assert (key_matches sample_env (presented_key req)) as Hkey
    by (exists "s3cret"; split; reflexivity).
  assert (page_num_of req = Ok 1) as Hn by reflexivity.
  assert (page_size_of req = Ok 10) as Hm by reflexivity.
  assert (Z.of_nat (length (Store.rows (db world_with_two))) <= 10 <= Store.bigint_max)
    as Hlim by (vm_compute; split; discriminate).
  assert (aborted world_with_two = false) as Hconn by reflexivity.
  repeat (split; [assumption |]).
  exact (full_listing sample_env req world_with_two 10 Hkey Hn Hm Hlim Hconn).
Defined.

Lemma failed_statement_ends_the_service_witness :
  let bad := ListUsers (sample_request valid_key [("page_num", ["0"])]) in
  let w := snd (serve sample_env bad world_with_jane) in
  let rs := [Create john_request; ListUsers (sample_request valid_key [])] in
  aborted w = true
  /\ aborted (serve_all sample_env rs w) = true
  /\ db (serve_all sample_env rs w) = db world_with_jane
  /\ fst (serve sample_env (Create john_request) w) = Raise in_failed_transaction
  /\ fst (serve sample_env (GetById (sample_request valid_key []) "1")
            (serve_all sample_env rs w))
     = Raise in_failed_transaction.
Proof.
  intros bad w rs.
  assert (aborted w = true) as Hconn by reflexivity.
  split; [exact Hconn |].
  destruct (failed_statement_ends_the_service sample_env rs
              (GetById (sample_request valid_key []) "1") w Hconn) as (Ha & Hd & _).
  split; [exact Ha |]. split; [exact Hd |]. split; reflexivity.
Defined.
